(** * A shallow embedding of [osint.py]

    The program declares a roster of agents, builds a seven-task
    investigation plan around a free-text target, hands roster and plan to
    an external orchestrator and writes the orchestrator's answer to a
    timestamped report file.

    Python values are embedded as follows.
    - A [str] is the list of its code points.  Literals of the source are
      written with [lit]; an f-string is the concatenation of its pieces.
    - [Agent(...)], [Task(...)] and [Crew(...)] are records of their
      keyword arguments.  What the [crewai] library does with them inside
      the [try] block, up to and including [crew.kickoff()], is given by
      an interface that the properties quantify over: the call returns a
      value of an opaque result type, or it raises.
    - The clock, the file system, standard input and standard output are
      fields of an explicit state threaded through a state-and-exception
      monad.

    The runner is embedded at two levels.  At the simple level every
    exception is an instance of [Exception], the class the handler
    catches, [print] goes through, text written to a file is on disk at
    once and the orchestrator leaves the world as it is: the level of the
    properties of successive runs and of the entry point.  The detailed
    level, module [Fine], has the exceptions that pass the handler, a
    [print] that can raise, the text that waits in the file object until
    the file is closed, a closing that can raise and an orchestrator that
    changes the state: the level of the properties of what a run does to
    the disk and of what it does when something fails.  Where nothing
    fails the two levels agree. *)

From Stdlib Require Import NArith Ascii String.
From stdpp Require Import base option list gmap.

Local Open Scope N_scope.
Local Open Scope list_scope.

(** ** Strings *)

Module Str.

(** A Python [str]: a sequence of code points. *)
Abbreviation str := (list N).

(** A literal of the source text. *)
Definition lit (s : string) : str :=
  map N_of_ascii (list_ascii_of_string s).

(** The line feed used by the source's multi-line literals and by
    [print]. *)
Definition nl : str := [10].

(** [s.startswith(p)]. *)
Fixpoint startswith (p s : str) : bool :=
  match p, s with
  | [], _ => true
  | _ :: _, [] => false
  | a :: p', b :: s' => (a =? b) && startswith p' s'
  end.

(** [sub in s]: some suffix of [s] starts with [sub]. *)
Fixpoint contains (sub s : str) : bool :=
  startswith sub s ||
  match s with
  | [] => false
  | _ :: s' => contains sub s'
  end.

(** [s.replace(old, new)] for a non-empty [old]: the string is scanned
    from the left; where [old] starts, [new] is emitted and the scan
    resumes behind the occurrence.  [skip] counts the characters of the
    occurrence still to be passed over. *)
Fixpoint replace_from (old new s : str) (skip : nat) : str :=
  match s with
  | [] => []
  | c :: s' =>
      match skip with
      | S k => replace_from old new s' k
      | O =>
          if startswith old s
          then new ++ replace_from old new s' (length old - 1)
          else c :: replace_from old new s' 0
      end
  end.

Definition replace (old new s : str) : str := replace_from old new s 0.

(** [c.isspace()], the table of CPython's [_PyUnicode_IsWhitespace]. *)
Definition isspace (c : N) : bool :=
  ((9 <=? c) && (c <=? 13)) || ((28 <=? c) && (c <=? 32))
  || (c =? 133) || (c =? 160) || (c =? 5760)
  || ((8192 <=? c) && (c <=? 8202))
  || (c =? 8232) || (c =? 8233) || (c =? 8239) || (c =? 8287)
  || (c =? 12288).

Fixpoint lstrip (s : str) : str :=
  match s with
  | [] => []
  | c :: s' => if isspace c then lstrip s' else s
  end.

Definition rstrip (s : str) : str := rev (lstrip (rev s)).

(** [s.strip()]. *)
Definition strip (s : str) : str := rstrip (lstrip s).

(** ["=" * 50] and the like. *)
Definition times (s : str) (n : nat) : str := concat (replicate n s).

End Str.
Import Str.

(** ** The agent roster (module level of the source) *)

Inductive Tool : Type :=
  | SerperDevTool (n_results : N) (country locale : str)
  | ScrapeWebsiteTool.

Definition search_tool : Tool := SerperDevTool 10 (lit "ru") (lit "ru").
Definition scrape_tool : Tool := ScrapeWebsiteTool.

(** The keyword arguments of an [Agent(...)] call.  [allow_delegation] is
    [None] where the call leaves it to the library's default. *)
Record Agent : Type := mkAgent {
  role : str;
  goal : str;
  backstory : str;
  tools : list Tool;
  verbose : bool;
  allow_delegation : option bool
}.

Definition lead_analyst : Agent := {|
  role := lit "Lead OSINT Analyst";
  goal := lit "Coordinate OSINT research and analyze collected data";
  backstory :=
    lit "An experienced analyst with deep OSINT knowledge. " ++ nl ++
    lit "    Specializes in building comprehensive profiles based on digital footprints." ++ nl ++
    lit "    Skilled in effective task delegation and integrating various information sources.";
  tools := [search_tool];
  verbose := true;
  allow_delegation := Some true
|}.

Definition social_expert : Agent := {|
  role := lit "Social Media Expert";
  goal := lit "Find and analyze social media profiles";
  backstory :=
    lit "A specialist in social media analysis and online behavior." ++ nl ++
    lit "    Skilled in finding related accounts and identifying activity patterns.";
  tools := [search_tool; scrape_tool];
  verbose := true;
  allow_delegation := None
|}.

Definition technical_analyst : Agent := {|
  role := lit "Technical Analyst";
  goal := lit "Analyze technical information and digital footprints";
  backstory :=
    lit "An expert in technical intelligence." ++ nl ++
    lit "    Specializes in analyzing domains, IPs, data leaks, and technical metadata.";
  tools := [search_tool; scrape_tool];
  verbose := true;
  allow_delegation := None
|}.

Definition behavior_analyst : Agent := {|
  role := lit "Behavioral Analyst";
  goal := lit "Analyze behavioral patterns and connections";
  backstory :=
    lit "A specialist in behavioral analysis." ++ nl ++
    lit "    Skilled in identifying interests, connections, and behavior patterns based on digital footprints.";
  tools := [search_tool];
  verbose := true;
  allow_delegation := None
|}.

Definition verification_expert : Agent := {|
  role := lit "Data Verification Expert";
  goal := lit "Verify the reliability of collected information";
  backstory :=
    lit "A specialist in verifying and confirming OSINT data." ++ nl ++
    lit "    Uses cross-reference analysis and multiple sources for verification." ++ nl ++
    lit "    Skilled in identifying misinformation and false leads.";
  tools := [search_tool; scrape_tool];
  verbose := true;
  allow_delegation := None
|}.

Definition deep_search_expert : Agent := {|
  role := lit "Deep Search Expert";
  goal := lit "Find hidden and hard-to-access information";
  backstory :=
    lit "A specialist in deep OSINT search." ++ nl ++
    lit "    Skilled in finding information in archives, historical data, and specialized databases." ++ nl ++
    lit "    Specializes in uncovering non-obvious connections and hidden data.";
  tools := [search_tool; scrape_tool];
  verbose := true;
  allow_delegation := None
|}.

Definition task_keeper : Agent := {|
  role := lit "Task Keeper";
  goal := lit "Ensure the research stays focused on the assigned task";
  backstory :=
    lit "A specialist in managing research focus." ++ nl ++
    lit "    Tracks the alignment of all actions with the initial task." ++ nl ++
    lit "    Helps agents stay on track with the research goal.";
  tools := [search_tool];
  verbose := true;
  allow_delegation := None
|}.

Definition context_analyst : Agent := {|
  role := lit "Context Analyst";
  goal := lit "Maintain contextual integrity of the investigation";
  backstory :=
    lit "An expert in contextual analysis." ++ nl ++
    lit "    Combines disparate data into a unified context." ++ nl ++
    lit "    Tracks the relevance of information relative to the task.";
  tools := [search_tool];
  verbose := true;
  allow_delegation := None
|}.

Definition manager_agent : Agent := {|
  role := lit "OSINT Manager";
  goal := lit "Manage the investigation process and coordinate agent work";
  backstory :=
    lit "An experienced OSINT investigation leader." ++ nl ++
    lit "    Specializes in coordinating complex investigations and managing a team of analysts." ++ nl ++
    lit "    Ensures effective agent interaction and result quality.";
  tools := [];
  verbose := true;
  allow_delegation := Some true
|}.

#[global] Instance Tool_eq_dec : EqDecision Tool.
Proof. solve_decision. Defined.

#[global] Instance Agent_eq_dec : EqDecision Agent.
Proof. solve_decision. Defined.

(** ** The task plan *)

(** The keyword arguments of a [Task(...)] call. *)
Record Task : Type := mkTask {
  description : str;
  expected_output : str;
  agent : Agent
}.

#[global] Instance Task_eq_dec : EqDecision Task.
Proof. solve_decision. Defined.

(** [create_investigation_plan(target)]: seven [tasks.append(Task(...))]
    on an initially empty list. *)
Definition create_investigation_plan (target : str) : list Task :=
  let tasks : list Task := [] in
  let tasks := tasks ++ [ {|
    description :=
      nl ++
      lit "        Conduct a preliminary analysis of the target: " ++ target ++ nl ++
      lit "        1. Identify main presence platforms" ++ nl ++
      lit "        2. Find key identifiers (email, username, etc.)" ++ nl ++
      lit "        3. Create an initial profile" ++ nl ++
      lit "        4. Determine priority areas for deep analysis" ++ nl ++
      lit "        " ++ nl ++
      lit "        Delegate subtasks to other agents if necessary." ++ nl ++
      lit "        ";
    expected_output :=
      lit "Provide a structured report containing:" ++ nl ++
      lit "        1. List of found platforms" ++ nl ++
      lit "        2. Found identifiers" ++ nl ++
      lit "        3. Brief target profile" ++ nl ++
      lit "        4. Priority areas for further analysis";
    agent := lead_analyst
  |} ] in
  let tasks := tasks ++ [ {|
    description :=
      nl ++
      lit "        Based on the preliminary analysis, investigate the social networks of " ++ target ++ lit ":" ++ nl ++
      lit "        1. Find all related profiles" ++ nl ++
      lit "        2. Analyze contacts and connections" ++ nl ++
      lit "        3. Study activity history" ++ nl ++
      lit "        4. Identify behavioral patterns" ++ nl ++
      lit "        ";
    expected_output :=
      lit "Provide a report including:" ++ nl ++
      lit "        1. List of found profiles with links" ++ nl ++
      lit "        2. Main contacts and connections" ++ nl ++
      lit "        3. Key points from activity history" ++ nl ++
      lit "        4. Identified behavioral patterns";
    agent := social_expert
  |} ] in
  let tasks := tasks ++ [ {|
    description :=
      nl ++
      lit "        Conduct a technical analysis of the found data on " ++ target ++ lit ":" ++ nl ++
      lit "        1. Check for data leaks" ++ nl ++
      lit "        2. Find related domains and IPs" ++ nl ++
      lit "        3. Analyze technical metadata" ++ nl ++
      lit "        4. Investigate digital footprints" ++ nl ++
      lit "        ";
    expected_output :=
      lit "Provide a technical report containing:" ++ nl ++
      lit "        1. Found data leaks" ++ nl ++
      lit "        2. List of related technical identifiers" ++ nl ++
      lit "        3. Metadata analysis" ++ nl ++
      lit "        4. Digital footprint map";
    agent := technical_analyst
  |} ] in
  let tasks := tasks ++ [ {|
    description :=
      nl ++
      lit "        Based on the collected data, analyze the behavior of " ++ target ++ lit ":" ++ nl ++
      lit "        1. Determine main interests" ++ nl ++
      lit "        2. Identify behavioral patterns" ++ nl ++
      lit "        3. Analyze social connections" ++ nl ++
      lit "        4. Create a psychological profile" ++ nl ++
      lit "        ";
    expected_output :=
      lit "Provide a behavioral analysis including:" ++ nl ++
      lit "        1. Interest map" ++ nl ++
      lit "        2. Description of behavioral patterns" ++ nl ++
      lit "        3. Social connection diagram" ++ nl ++
      lit "        4. Psychological profile";
    agent := behavior_analyst
  |} ] in
  let tasks := tasks ++ [ {|
    description :=
      nl ++
      lit "        Analyze all collected data on " ++ target ++ lit ":" ++ nl ++
      lit "        1. Combine information from all agents" ++ nl ++
      lit "        2. Identify data gaps" ++ nl ++
      lit "        3. Plan additional search directions" ++ nl ++
      lit "        4. Create a detailed target profile" ++ nl ++
      lit "        ";
    expected_output :=
      lit "Provide a final report containing:" ++ nl ++
      lit "        1. Complete target profile" ++ nl ++
      lit "        2. Identified data gaps" ++ nl ++
      lit "        3. Plan for further investigation" ++ nl ++
      lit "        4. Main conclusions and recommendations";
    agent := lead_analyst
  |} ] in
  let tasks := tasks ++ [ {|
    description :=
      nl ++
      lit "        Conduct a deep search for information on " ++ target ++ lit ":" ++ nl ++
      lit "        1. Investigate archival data and historical records" ++ nl ++
      lit "        2. Analyze specialized databases" ++ nl ++
      lit "        3. Find non-obvious connections and mentions" ++ nl ++
      lit "        4. Investigate rare and specific sources" ++ nl ++
      lit "        ";
    expected_output :=
      lit "Provide a detailed report including:" ++ nl ++
      lit "        1. Found archival data" ++ nl ++
      lit "        2. Results from specialized database searches" ++ nl ++
      lit "        3. Identified non-obvious connections" ++ nl ++
      lit "        4. Information from rare sources";
    agent := deep_search_expert
  |} ] in
  let tasks := tasks ++ [ {|
    description :=
      nl ++
      lit "        Verify the reliability of all collected information on " ++ target ++ lit ":" ++ nl ++
      lit "        1. Conduct cross-reference analysis of data" ++ nl ++
      lit "        2. Confirm information from multiple sources" ++ nl ++
      lit "        3. Identify possible misinformation" ++ nl ++
      lit "        4. Assess the reliability of each source" ++ nl ++
      lit "        ";
    expected_output :=
      lit "Provide a verification report including:" ++ nl ++
      lit "        1. Confirmed data with sources" ++ nl ++
      lit "        2. Debunked information" ++ nl ++
      lit "        3. Data requiring additional verification" ++ nl ++
      lit "        4. Source reliability assessment";
    agent := verification_expert
  |} ] in
  tasks.

(** ** The query normaliser *)

(** The prompt echo looked for by [parse_osint_query]. *)
Definition prompt_echo : str := lit "Enter target for OSINT:".

(** [parse_osint_query(query)]. *)
Definition parse_osint_query (query : str) : str :=
  let query :=
    if contains prompt_echo query
    then strip (replace prompt_echo [] query)
    else query in
  let task_description :=
      nl ++
      lit "    Investigation target: " ++ query ++ nl ++
      lit "    " ++ nl ++
      lit "    Required:" ++ nl ++
      lit "    1. Find all available information on the target" ++ nl ++
      lit "    2. Verify provided assumptions about age" ++ nl ++
      lit "    3. If requested - determine the birth month" ++ nl ++
      lit "    4. If requested - check presence on specialized forums" ++ nl ++
      lit "    " ++ nl ++
      lit "    Original query: " ++ query ++ nl ++
      lit "    " in
  task_description.

(** ** Exceptions, time and the world *)

(** An instance of Python's [Exception], the class named by the handler of
    [run_osint_investigation]; [exn_str e] is [str(e)]. *)
Record exn : Type := Exception { exn_str : str }.

Inductive outcome (A : Type) : Type :=
  | Return (a : A)
  | Raise (e : exn).
Arguments Return {A} a.
Arguments Raise {A} e.

(** A reading of [datetime.now()]. *)
Record datetime : Type := mkDatetime {
  year : N; month : N; day : N; hour : N; minute : N; second : N
}.

Definition digit (n : N) : N := 48 + n mod 10.
Definition dec2 (n : N) : str := [digit (n / 10); digit n].
Definition dec4 (n : N) : str :=
  [digit (n / 1000); digit (n / 100); digit (n / 10); digit n].

(** [t.strftime('%Y%m%d_%H%M%S')]: zero-padded decimal fields. *)
Definition strftime (t : datetime) : str :=
  dec4 (year t) ++ dec2 (month t) ++ dec2 (day t) ++ lit "_" ++
  dec2 (hour t) ++ dec2 (minute t) ++ dec2 (second t).

(** What the program can observe and change.  [clock] lists the successive
    readings of [datetime.now()], [reads] counts the readings taken.
    [faults] is the environment's verdict on the successive file-system
    calls: an entry [Some e] makes the call raise [e], an entry [None] (or
    an exhausted list) lets it go through. *)
Record World : Type := mkWorld {
  clock : nat -> datetime;
  reads : nat;
  dirs : gset str;
  files : gmap str str;
  faults : list (option exn);
  stdin : list str;
  stdout : str
}.

Definition set_reads (n : nat) (w : World) : World :=
  mkWorld (clock w) n (dirs w) (files w) (faults w) (stdin w) (stdout w).
Definition set_dirs (d : gset str) (w : World) : World :=
  mkWorld (clock w) (reads w) d (files w) (faults w) (stdin w) (stdout w).
Definition set_files (f : gmap str str) (w : World) : World :=
  mkWorld (clock w) (reads w) (dirs w) f (faults w) (stdin w) (stdout w).
Definition set_faults (l : list (option exn)) (w : World) : World :=
  mkWorld (clock w) (reads w) (dirs w) (files w) l (stdin w) (stdout w).
Definition set_stdin (l : list str) (w : World) : World :=
  mkWorld (clock w) (reads w) (dirs w) (files w) (faults w) l (stdout w).
Definition set_stdout (s : str) (w : World) : World :=
  mkWorld (clock w) (reads w) (dirs w) (files w) (faults w) (stdin w) s.

(** ** The monad of the program: state that survives a raised exception *)

Definition M (A : Type) : Type := World -> outcome A * World.

Definition ret {A} (a : A) : M A := fun w => (Return a, w).

Definition raise {A} (e : exn) : M A := fun w => (Raise e, w).

Definition bind {A B} (m : M A) (k : A -> M B) : M B :=
  fun w =>
    match m w with
    | (Return a, w') => k a w'
    | (Raise e, w') => (Raise e, w')
    end.

(** [try: body except Exception as e: handler]. *)
Definition try_except {A} (body : M A) (handler : exn -> M A) : M A :=
  fun w =>
    match body w with
    | (Return a, w') => (Return a, w')
    | (Raise e, w') => handler e w'
    end.

Declare Scope py_scope.
Delimit Scope py_scope with py.
Notation "x <- m ;; k" := (bind m (fun x => k))
  (at level 100, m at next level, right associativity) : py_scope.
Notation "m ;; k" := (bind m (fun _ => k))
  (at level 100, right associativity) : py_scope.

(** [datetime.now()]. *)
Definition datetime_now : M datetime :=
  fun w => (Return (clock w (reads w)), set_reads (S (reads w)) w).

(** [print(s)]. *)
Definition print (s : str) : M unit :=
  fun w => (Return tt, set_stdout (stdout w ++ s ++ nl) w).

(** [input(prompt)]: the prompt goes to standard output, the next line of
    standard input is returned; at end of input [EOFError] is raised. *)
Definition input (prompt : str) : M str :=
  fun w =>
    let w := set_stdout (stdout w ++ prompt) w in
    match stdin w with
    | [] => (Raise (Exception (lit "EOF when reading a line")), w)
    | line :: rest => (Return line, set_stdin rest w)
    end.

(** The environment's verdict on the next file-system call. *)
Definition syscall : M unit :=
  fun w =>
    match faults w with
    | [] => (Return tt, w)
    | None :: rest => (Return tt, set_faults rest w)
    | Some e :: rest => (Raise e, set_faults rest w)
    end.

(** [os.makedirs(path, exist_ok=True)]. *)
Definition makedirs (path : str) : M unit :=
  (syscall ;;
   fun w => (Return tt, set_dirs ({[ path ]} ∪ dirs w) w))%py.

(** A file object open for writing, identified by its path. *)
Record TextFile : Type := mkTextFile { name : str }.

(** [open(path, 'w', encoding='utf-8')]: creates or truncates. *)
Definition open_w (path : str) : M TextFile :=
  (syscall ;;
   fun w => (Return (mkTextFile path), set_files (<[ path := [] ]> (files w)) w))%py.

(** [f.write(s)]: appends to what the file holds.  The text reaches the
    file at the latest when the [with] block is left, by return or by
    exception; the model lets it arrive at once. *)
Definition write (f : TextFile) (s : str) : M unit :=
  (syscall ;;
   fun w =>
     (Return tt,
      set_files (<[ name f := default [] (files w !! name f) ++ s ]> (files w)) w))%py.

(** ** The orchestrator *)

Inductive Process : Type := sequential | hierarchical.

(** The keyword arguments of the [Crew(...)] call. *)
Record Crew : Type := mkCrew {
  agents : list Agent;
  tasks : list Task;
  crew_verbose : bool;
  process : Process;
  crew_manager_agent : Agent;
  memory : bool;
  planning : bool
}.

(** The interface of the external library that the program consumes:
    [Crew(...).kickoff()] either returns a result object or raises, and a
    result object has a text form ([str(result)]) and a truth value
    ([if result:]).  The call may depend on the world it is made in. *)
Class Orchestrator : Type := {
  CrewOutput : Type;
  kickoff : Crew -> World -> outcome CrewOutput;
  output_str : CrewOutput -> str;
  output_bool : CrewOutput -> bool
}.

Section Program.

Context `{Orchestrator}.

Definition crew_kickoff (crew : Crew) : M CrewOutput :=
  fun w => (kickoff crew w, w).

(** The [Crew(...)] assembled by [run_osint_investigation]. *)
Definition crew (target : str) : Crew := {|
  agents := [
    lead_analyst;
    social_expert;
    technical_analyst;
    behavior_analyst;
    verification_expert;
    deep_search_expert;
    task_keeper;
    context_analyst
  ];
  tasks := create_investigation_plan target;
  crew_verbose := true;
  process := hierarchical;
  crew_manager_agent := manager_agent;
  memory := false;
  planning := true
|}.

(** [run_osint_investigation(target)]; [None] is Python's [None]. *)
Definition run_osint_investigation (target : str) : M (option CrewOutput) :=
  try_except
    (now <- datetime_now ;;
     let investigation_id := lit "osint_" ++ strftime now in
     let crew := crew target in
     result <- crew_kickoff crew ;;
     now <- datetime_now ;;
     let timestamp := strftime now in
     makedirs (lit "osint_results") ;;
     f <- open_w (lit "osint_results/investigation_" ++ timestamp ++ lit ".txt") ;;
     write f (lit "OSINT Investigation Report" ++ nl) ;;
     write f (times (lit "=") 50 ++ nl ++ nl) ;;
     write f (lit "Assigned task: " ++ target ++ nl) ;;
     write f (times (lit "=") 50 ++ nl ++ nl) ;;
     write f (output_str result) ;;
     ret (Some result))%py
    (fun e =>
       (print (lit "Error: " ++ exn_str e) ;;
        ret None)%py).

(** The truth value of [result] in [if result:]. *)
Definition truth (result : option CrewOutput) : bool :=
  match result with
  | None => false
  | Some r => output_bool r
  end.

(** The text [print(result)] sends out. *)
Definition str_of (result : option CrewOutput) : str :=
  match result with
  | None => lit "None"
  | Some r => output_str r
  end.

(** The [if __name__ == "__main__":] block. *)
Definition main : M unit :=
  (query <- input (lit "Enter target for OSINT: ") ;;
   let formatted_task := parse_osint_query query in
   result <- run_osint_investigation formatted_task ;;
   if truth result
   then (print (nl ++ lit "Investigation results:") ;;
         print (str_of result))
   else ret tt)%py.

End Program.

(** * The vocabulary of the properties *)

(** ** The task plan *)

(** The opening words of the seven task descriptions, in the order
    preliminary, social, technical, behavioral, aggregation, deep search,
    verification; the target follows each of them at once. *)
Definition openings : list str := [
  nl ++ lit "        Conduct a preliminary analysis of the target: ";
  nl ++ lit "        Based on the preliminary analysis, investigate the social networks of ";
  nl ++ lit "        Conduct a technical analysis of the found data on ";
  nl ++ lit "        Based on the collected data, analyze the behavior of ";
  nl ++ lit "        Analyze all collected data on ";
  nl ++ lit "        Conduct a deep search for information on ";
  nl ++ lit "        Verify the reliability of all collected information on "
].

(** The agents the seven tasks are bound to, in plan order. *)
Definition assignment : list Agent := [
  lead_analyst; social_expert; technical_analyst; behavior_analyst;
  lead_analyst; deep_search_expert; verification_expert
].

(** ** The query normaliser *)

(** The fixed text around the two places where [parse_osint_query] puts
    the query: up to the first, between the two (the four numbered
    instructions), and after the second. *)
Definition query_head : str := nl ++ lit "    Investigation target: ".

Definition query_middle : str :=
  nl ++
  lit "    " ++ nl ++
  lit "    Required:" ++ nl ++
  lit "    1. Find all available information on the target" ++ nl ++
  lit "    2. Verify provided assumptions about age" ++ nl ++
  lit "    3. If requested - determine the birth month" ++ nl ++
  lit "    4. If requested - check presence on specialized forums" ++ nl ++
  lit "    " ++ nl ++
  lit "    Original query: ".

Definition query_tail : str := nl ++ lit "    ".

(** [s.removeprefix(p)]. *)
Definition removeprefix (p s : str) : str :=
  if startswith p s then drop (length p) s else s.

(** The normaliser as the specification words it: the prompt echo is
    taken off the front if the input starts with it, surrounding
    whitespace is stripped, and the remaining text is put into the two
    places of the template. *)
Definition parse_osint_query_as_worded (query : str) : str :=
  let text := strip (removeprefix prompt_echo query) in
  query_head ++ text ++ query_middle ++ text ++ query_tail.

(** ** The runner *)

(** The position and the exception of the first fault among the next [n]
    file-system calls, if there is one. *)
Fixpoint first_fault (n : nat) (l : list (option exn)) : option (nat * exn) :=
  match n, l with
  | O, _ => None
  | S _, [] => None
  | S _, Some e :: _ => Some (O, e)
  | S n', None :: l' =>
      match first_fault n' l' with
      | Some (k, e) => Some (S k, e)
      | None => None
      end
  end.

Definition results_dir : str := lit "osint_results".

(** The name of the report file of a run entered in world [w]: it carries
    the second clock reading of the run; the first one went into
    [investigation_id]. *)
Definition report_path (w : World) : str :=
  lit "osint_results/investigation_" ++
  strftime (clock w (S (reads w))) ++ lit ".txt".

Definition separator : str := times (lit "=") 50 ++ nl ++ nl.

(** What the five [f.write] calls send, for target [T] and result text
    [R]. *)
Definition report_chunks (T R : str) : list str := [
  lit "OSINT Investigation Report" ++ nl;
  separator;
  lit "Assigned task: " ++ T ++ nl;
  separator;
  R
].

(** The world in which the orchestrator is called by a run entered in
    [w]: the clock has been read once. *)
Definition at_kickoff (w : World) : World := set_reads (S (reads w)) w.

(** The world of a run entered in [w] after the second clock reading,
    when [done] of its seven file-system calls (one [makedirs], one
    [open], five [write]) have gone through and [used] verdicts of the
    environment have been consumed. *)
Definition progress (done used : nat) (T R : str) (w : World) : World := {|
  clock := clock w;
  reads := S (S (reads w));
  dirs := if (1 <=? done)%nat then {[ results_dir ]} ∪ dirs w else dirs w;
  files :=
    if (2 <=? done)%nat
    then <[ report_path w := concat (take (done - 2) (report_chunks T R)) ]> (files w)
    else files w;
  faults := drop used (faults w);
  stdin := stdin w;
  stdout := stdout w
|}.

(** The effect of the handler's [print]. *)
Definition error_printed (e : exn) (w : World) : World :=
  set_stdout (stdout w ++ (lit "Error: " ++ exn_str e) ++ nl) w.

(** ** Concrete orchestrators and worlds *)

(** The truth value of a Python [str]. *)
Definition nonempty (s : str) : bool :=
  match s with
  | [] => false
  | _ :: _ => true
  end.

(** An orchestrator whose result is a text that depends on the number of
    clock readings taken when it is called. *)
Definition answering (text : nat → str) : Orchestrator := {|
  CrewOutput := str;
  kickoff := λ _ w, Return (text (reads w));
  output_str := id;
  output_bool := nonempty
|}.

(** An orchestrator that raises. *)
Definition refusing (e : exn) : Orchestrator := {|
  CrewOutput := str;
  kickoff := λ _ _, Raise e;
  output_str := id;
  output_bool := nonempty
|}.

(** A world with an empty disk in which the clock advances by one second
    from reading to reading, starting on 17 May 2024 at 09:30:00. *)
Definition morning (script : list (option exn)) (lines : list str) : World := {|
  clock := λ n, mkDatetime 2024 5 17 9 30 (N.of_nat n);
  reads := 0;
  dirs := ∅;
  files := ∅;
  faults := script;
  stdin := lines;
  stdout := []
|}.

Definition numbered (n : nat) : str := lit "findings #" ++ dec2 (N.of_nat n).

(** ** Further vocabulary *)

(** The text [parse_osint_query] puts into the two places of its
    template: the value of [query] after the [if]. *)
Definition query_text (q : str) : str :=
  if contains prompt_echo q then strip (replace prompt_echo [] q) else q.

(** The invariants of a Python [datetime] object. *)
Definition valid_datetime (t : datetime) : Prop :=
  1 ≤ year t ≤ 9999 ∧ 1 ≤ month t ≤ 12 ∧ 1 ≤ day t ≤ 31
  ∧ hour t ≤ 23 ∧ minute t ≤ 59 ∧ second t ≤ 59.

(** The report as one text. *)
Definition report (T R : str) : str := concat (report_chunks T R).

#[global] Instance Process_eq_dec : EqDecision Process.
Proof. solve_decision. Defined.

#[global] Instance Crew_eq_dec : EqDecision Crew.
Proof. solve_decision. Defined.

(** An orchestrator whose result text is a function of the crew it is
    given. *)
Definition scripted (f : Crew → str) : Orchestrator := {|
  CrewOutput := str;
  kickoff := λ c _, Return (f c);
  output_str := id;
  output_bool := nonempty
|}.

(** A world like [morning] whose clock stands still. *)
Definition standstill (script : list (option exn)) (lines : list str) : World := {|
  clock := λ _, mkDatetime 2024 5 17 9 30 0;
  reads := 0;
  dirs := ∅;
  files := ∅;
  faults := script;
  stdin := lines;
  stdout := []
|}.

(** * The runner in detail *)

(** The runner once more, with what lies below the program in view.
    - An exception that is not an instance of [Exception]
      ([KeyboardInterrupt], [SystemExit], ...) passes the handler of the
      [try] statement.
    - [print] can raise.
    - The text handed to [f.write] waits in the file object and reaches
      the disk when it is flushed, at the latest by the implicit [close]
      at the end of the [with] block; [close] is also run when the block
      is left by an exception, and it can raise itself.
    - The calls into [crewai] can change the state of the world before
      they return or raise.

    The runner above is this one for an environment in which only
    instances of [Exception] are raised, [print] and the closing of a
    file go through, text written to a file is on disk at once and the
    orchestrator leaves the world as it is. *)

Module Fine.

(** What a call can raise: an instance of [Exception] (or of a subclass),
    or an instance of another subclass of [BaseException], such as
    [KeyboardInterrupt], [SystemExit] or [GeneratorExit], given by its
    class name. *)
Inductive raised : Type :=
  | IsException (e : exn)
  | NotException (name : str).

Inductive result (A : Type) : Type :=
  | Returns (a : A)
  | Raises (e : raised).
Arguments Returns {A} a.
Arguments Raises {A} e.

(** The environment's verdict on a call that reaches below the program
    ([print], [os.makedirs], [open], [f.write], [close]): the call goes
    through, or it raises [e], which can be an error of the call or an
    interrupt that arrives during it.  For a call that was to move text,
    [sofar] is the number of characters of the waiting text that have
    arrived all the same: on standard output for [print], on disk by the
    time the file is closed for [f.write] and [close]. *)
Inductive verdict : Type :=
  | Goes
  | Fails (e : raised) (sofar : nat).

(** [files] holds the text of each file on disk, as reading the file back
    gives it; [buffers] holds, for each open file, the text written to
    the file object and not yet on disk; [script] lists the verdicts on
    the calls to come, an exhausted list meaning [Goes]. *)
Record State : Type := mkState {
  clock : nat → datetime;
  reads : nat;
  dirs : gset str;
  files : gmap str str;
  buffers : gmap str str;
  script : list verdict;
  stdin : list str;
  stdout : str
}.

Definition set_reads (n : nat) (s : State) : State :=
  mkState (clock s) n (dirs s) (files s) (buffers s) (script s) (stdin s) (stdout s).
Definition set_dirs (d : gset str) (s : State) : State :=
  mkState (clock s) (reads s) d (files s) (buffers s) (script s) (stdin s) (stdout s).
Definition set_files (f : gmap str str) (s : State) : State :=
  mkState (clock s) (reads s) (dirs s) f (buffers s) (script s) (stdin s) (stdout s).
Definition set_buffers (b : gmap str str) (s : State) : State :=
  mkState (clock s) (reads s) (dirs s) (files s) b (script s) (stdin s) (stdout s).
Definition set_script (l : list verdict) (s : State) : State :=
  mkState (clock s) (reads s) (dirs s) (files s) (buffers s) l (stdin s) (stdout s).
Definition set_stdout (t : str) (s : State) : State :=
  mkState (clock s) (reads s) (dirs s) (files s) (buffers s) (script s) (stdin s) t.

Definition M (A : Type) : Type := State → result A * State.

Definition ret {A} (a : A) : M A := fun s => (Returns a, s).

Definition bind {A B} (m : M A) (k : A → M B) : M B :=
  fun s =>
    match m s with
    | (Returns a, s') => k a s'
    | (Raises e, s') => (Raises e, s')
    end.

(** [try: body except Exception as e: handler]: what is not an instance
    of [Exception] goes on. *)
Definition try_except {A} (body : M A) (handler : exn → M A) : M A :=
  fun s =>
    match body s with
    | (Returns a, s') => (Returns a, s')
    | (Raises (IsException e), s') => handler e s'
    | (Raises (NotException name), s') => (Raises (NotException name), s')
    end.

Declare Scope fine_scope.
Delimit Scope fine_scope with fine.
Notation "x <- m ;; k" := (bind m (fun x => k))
  (at level 100, m at next level, right associativity) : fine_scope.
Notation "m ;; k" := (bind m (fun _ => k))
  (at level 100, right associativity) : fine_scope.

Definition next_verdict : M verdict :=
  fun s =>
    match script s with
    | [] => (Returns Goes, s)
    | v :: rest => (Returns v, set_script rest s)
    end.

(** [datetime.now()]. *)
Definition datetime_now : M datetime :=
  fun s => (Returns (clock s (reads s)), set_reads (S (reads s)) s).

(** [print(text)]. *)
Definition print (text : str) : M unit :=
  (v <- next_verdict ;;
   fun s =>
     match v with
     | Goes => (Returns tt, set_stdout (stdout s ++ text ++ nl) s)
     | Fails e sofar =>
         (Raises e, set_stdout (stdout s ++ take sofar (text ++ nl)) s)
     end)%fine.

(** [os.makedirs(path, exist_ok=True)]. *)
Definition makedirs (path : str) : M unit :=
  (v <- next_verdict ;;
   fun s =>
     match v with
     | Goes => (Returns tt, set_dirs ({[ path ]} ∪ dirs s) s)
     | Fails e _ => (Raises e, s)
     end)%fine.

(** [open(path, 'w', encoding='utf-8')]: creates or truncates the file
    and returns a file object with nothing waiting. *)
Definition open_w (path : str) : M TextFile :=
  (v <- next_verdict ;;
   fun s =>
     match v with
     | Goes =>
         (Returns (mkTextFile path),
          set_buffers (<[ path := [] ]> (buffers s))
            (set_files (<[ path := [] ]> (files s)) s))
     | Fails e _ => (Raises e, s)
     end)%fine.

(** [f.write(text)]: the text joins what is waiting in the file object.
    When a flush in between moves waiting text to the disk is not
    observed by the program, which does not look at the file before it
    is closed: the text is kept waiting until then.  If the call raises
    (the text cannot be encoded, or a flush that the call set off
    fails), [sofar] characters of what was waiting, this text included,
    are on disk when the file is closed. *)
Definition write (f : TextFile) (text : str) : M unit :=
  (v <- next_verdict ;;
   fun s =>
     let waiting := default [] (buffers s !! name f) ++ text in
     match v with
     | Goes => (Returns tt, set_buffers (<[ name f := waiting ]> (buffers s)) s)
     | Fails e sofar =>
         (Raises e,
          set_buffers (<[ name f := [] ]> (buffers s))
            (set_files
               (<[ name f := default [] (files s !! name f) ++ take sofar waiting ]>
                  (files s)) s))
     end)%fine.

(** [f.close()]: what is waiting goes to disk; if that fails, [sofar]
    characters of it have arrived. *)
Definition close (f : TextFile) : M unit :=
  (v <- next_verdict ;;
   fun s =>
     let waiting := default [] (buffers s !! name f) in
     let arrived :=
       match v with
       | Goes => waiting
       | Fails _ sofar => take sofar waiting
       end in
     let s' :=
       set_buffers (delete (name f) (buffers s))
         (set_files
            (<[ name f := default [] (files s !! name f) ++ arrived ]> (files s)) s) in
     match v with
     | Goes => (Returns tt, s')
     | Fails e _ => (Raises e, s')
     end)%fine.

(** [with open(path, 'w', encoding='utf-8') as f: body]: the file is
    closed when the block is left, by its end or by an exception; an
    exception raised by [close] takes the place of the block's. *)
Definition with_open {A} (path : str) (body : TextFile → M A) : M A :=
  (f <- open_w path ;;
   fun s =>
     match body f s with
     | (Returns a, s') => (close f ;; ret a) s'
     | (Raises e, s') =>
         match close f s' with
         | (Returns _, s'') => (Raises e, s'')
         | (Raises e', s'') => (Raises e', s'')
         end
     end)%fine.

(** The external library, as in [Orchestrator]; here the calls can leave
    the state changed (what they printed, what they put on disk, the
    clock readings they took), and they can be left by what is not an
    instance of [Exception]. *)
Class Orchestrator : Type := {
  CrewOutput : Type;
  kickoff : Crew → State → result CrewOutput * State;
  output_str : CrewOutput → str;
  output_bool : CrewOutput → bool
}.

Section Program.

Context `{Orchestrator}.

Definition crew_kickoff (crew : Crew) : M CrewOutput :=
  fun s => kickoff crew s.

(** [run_osint_investigation(target)]. *)
Definition run_osint_investigation (target : str) : M (option CrewOutput) :=
  try_except
    (now <- datetime_now ;;
     let investigation_id := lit "osint_" ++ strftime now in
     let crew := crew target in
     result <- crew_kickoff crew ;;
     now <- datetime_now ;;
     let timestamp := strftime now in
     makedirs (lit "osint_results") ;;
     with_open (lit "osint_results/investigation_" ++ timestamp ++ lit ".txt")
       (fun f =>
          write f (lit "OSINT Investigation Report" ++ nl) ;;
          write f (times (lit "=") 50 ++ nl ++ nl) ;;
          write f (lit "Assigned task: " ++ target ++ nl) ;;
          write f (times (lit "=") 50 ++ nl ++ nl) ;;
          write f (output_str result)) ;;
     ret (Some result))%fine
    (fun e =>
       (print (lit "Error: " ++ exn_str e) ;;
        ret None)%fine).

End Program.

(** ** The vocabulary of the properties *)

Definition verdict_at (l : list verdict) (i : nat) : verdict :=
  default Goes (l !! i).

(** The position, the exception and the count of the first failing
    verdict among the first [n], if there is one. *)
Fixpoint first_failure (n : nat) (l : list verdict) : option (nat * raised * nat) :=
  match n, l with
  | O, _ => None
  | S _, [] => None
  | S _, Fails e sofar :: _ => Some (O, e, sofar)
  | S n', Goes :: l' =>
      match first_failure n' l' with
      | Some (i, e, sofar) => Some (S i, e, sofar)
      | None => None
      end
  end.

(** The state in which the orchestrator is called by a run entered in
    [s]: the clock has been read once. *)
Definition at_kickoff (s : State) : State := set_reads (S (reads s)) s.

(** The name of the report file of a run whose orchestrator call has left
    the state [sk]: it carries the clock reading taken next. *)
Definition report_path (sk : State) : str :=
  lit "osint_results/investigation_" ++
  strftime (clock sk (reads sk)) ++ lit ".txt".

(** The pattern [YYYYMMDD_HHMMSS] as the specification words it: the
    year in four decimal digits, month and day in two each, an
    underscore, hour, minute and second in two each. *)
Fixpoint numeral (width : nat) (n : N) : str :=
  match width with
  | O => []
  | S width' => numeral width' (n / 10) ++ [48 + n mod 10]
  end.

Definition stamp_as_worded (t : datetime) : str :=
  numeral 4 (year t) ++ numeral 2 (month t) ++ numeral 2 (day t) ++
  lit "_" ++
  numeral 2 (hour t) ++ numeral 2 (minute t) ++ numeral 2 (second t).

(** How the part of the run after the orchestrator's return can end:
    all of [makedirs], [open], the five [write]s and [close] went through,
    or an exception came out of it, with the directory made or not, with
    the report file not opened or holding [content], and [used] verdicts
    consumed. *)
Inductive fs_end : Type :=
  | Written
  | Broke (e : raised) (made : bool) (content : option str) (used : nat).

Definition fs_phase (T R : str) (l : list verdict) : fs_end :=
  match first_failure 7 l with
  | None =>
      match verdict_at l 7 with
      | Goes => Written
      | Fails e sofar => Broke e true (Some (take sofar (report T R))) 8
      end
  | Some (O, e, _) => Broke e false None 1
  | Some (S O, e, _) => Broke e true None 2
  | Some (S (S k), e, sofar) =>
      let content := take sofar (concat (take (S k) (report_chunks T R))) in
      match verdict_at l (S (S (S k))) with
      | Goes => Broke e true (Some content) (k + 4)
      | Fails e' _ => Broke e' true (Some content) (k + 4)
      end
  end.

(** The state reached when the part after the orchestrator's return is
    over, [sk] being the state the orchestrator left. *)
Definition after_fs (made : bool) (content : option str) (used : nat)
    (sk : State) : State := {|
  clock := clock sk;
  reads := S (reads sk);
  dirs := if made then {[ results_dir ]} ∪ dirs sk else dirs sk;
  files :=
    match content with
    | Some text => <[ report_path sk := text ]> (files sk)
    | None => files sk
    end;
  buffers :=
    match content with
    | Some _ => delete (report_path sk) (buffers sk)
    | None => buffers sk
    end;
  script := drop used (script sk);
  stdin := stdin sk;
  stdout := stdout sk
|}.

(** What the [try] statement makes of an exception that came out of its
    body. *)
Definition handled `{Orchestrator} (e : raised) : M (option CrewOutput) :=
  match e with
  | IsException e0 => (print (lit "Error: " ++ exn_str e0) ;; ret None)%fine
  | NotException name => fun s => (Raises (NotException name), s)
  end.


(** ** Concrete orchestrators and states *)

(** An orchestrator that returns a text and leaves the state as it
    is. *)
Definition answering (text : str) : Orchestrator := {|
  CrewOutput := str;
  kickoff := λ _ s, (Returns text, s);
  output_str := id;
  output_bool := nonempty
|}.

(** An orchestrator that raises. *)
Definition refusing (e : raised) : Orchestrator := {|
  CrewOutput := str;
  kickoff := λ _ s, (Raises e, s);
  output_str := id;
  output_bool := nonempty
|}.

(** A state with an empty disk in which the clock advances by one second
    from reading to reading, starting on 17 May 2024 at 09:30:00. *)
Definition morning (verdicts : list verdict) : State := {|
  clock := λ n, mkDatetime 2024 5 17 9 30 (N.of_nat n);
  reads := 0;
  dirs := ∅;
  files := ∅;
  buffers := ∅;
  script := verdicts;
  stdin := [];
  stdout := []
|}.

Definition connection_refused : raised :=
  IsException (Exception (lit "[Errno 111] Connection refused")).

(** [KeyboardInterrupt], raised when the user presses Ctrl-C. *)
Definition keyboard_interrupt : raised :=
  NotException (lit "KeyboardInterrupt").



(** [ValueError], raised by [print] when standard output is closed. *)
Definition closed_stdout : raised :=
  IsException (Exception (lit "I/O operation on closed file.")).

End Fine.

(** ** The two levels *)

(** A state of the detailed level seen from the simple one, where every
    file-system call goes through. *)
Definition coarse (s : Fine.State) : World := {|
  clock := Fine.clock s;
  reads := Fine.reads s;
  dirs := Fine.dirs s;
  files := Fine.files s;
  faults := [];
  stdin := Fine.stdin s;
  stdout := Fine.stdout s
|}.

Definition lifted {A} (o : outcome A) : Fine.result A :=
  match o with
  | Return a => Fine.Returns a
  | Raise e => Fine.Raises (Fine.IsException e)
  end.

(** An orchestrator of the simple level at the detailed one: it leaves
    the state as it is. *)
Definition detailed (O : Orchestrator) : Fine.Orchestrator := {|
  Fine.CrewOutput := @CrewOutput O;
  Fine.kickoff := λ c s, (lifted (@kickoff O c (coarse s)), s);
  Fine.output_str := @output_str O;
  Fine.output_bool := @output_bool O
|}.

(** * Properties *)

(** ** Strings: [startswith], [in] and [replace] *)

Section StrFacts.

Implicit Types p s sub pre post old new : str.

Lemma startswith_app p s : startswith p (p ++ s) = true.
Proof.
  induction p as [|a p IH]; simpl; [done|].
  by rewrite N.eqb_refl, IH.
Qed.

Lemma startswith_prefix p s : startswith p s = true ↔ ∃ r, s = p ++ r.
Proof.
  split.
  - revert s. induction p as [|a p IH]; intros s Hs.
    + by exists s.
    + destruct s as [|b s]; [done|]. simpl in Hs.
      apply andb_true_iff in Hs as [Hab Hs].
      apply N.eqb_eq in Hab as ->.
      destruct (IH _ Hs) as [r ->]. by exists r.
  - intros [r ->]. apply startswith_app.
Qed.

Lemma contains_unfold sub s :
  contains sub s =
  startswith sub s || match s with [] => false | _ :: s' => contains sub s' end.
Proof. by destruct s. Qed.

Lemma contains_mid pre sub post : contains sub (pre ++ sub ++ post) = true.
Proof.
  induction pre as [|c pre IH]; rewrite contains_unfold.
  - simpl. by rewrite startswith_app.
  - simpl. rewrite IH. apply orb_true_r.
Qed.

(** Python's [sub in s] is the usual substring relation. *)
Lemma contains_substring sub s :
  contains sub s = true ↔ ∃ pre post, s = pre ++ sub ++ post.
Proof.
  split.
  - induction s as [|c s IH]; rewrite contains_unfold; intros Hc.
    + apply orb_true_iff in Hc as [Hc|Hc]; [|done].
      apply startswith_prefix in Hc as [r Hr]. by exists [], r.
    + apply orb_true_iff in Hc as [Hc|Hc].
      * apply startswith_prefix in Hc as [r Hr]. by exists [], r.
      * destruct (IH Hc) as (pre & post & ->). by exists (c :: pre), post.
  - intros (pre & post & ->). apply contains_mid.
Qed.

Lemma replace_from_skip old new a s :
  replace_from old new (a ++ s) (length a) = replace_from old new s 0.
Proof. induction a as [|c a IH]; [done|]. simpl. apply IH. Qed.

(** Where [old] does not occur, [replace] changes nothing. *)
Lemma replace_absent old new s :
  contains old s = false → replace old new s = s.
Proof.
  unfold replace. induction s as [|c s IH]; [done|].
  rewrite contains_unfold. intros Hc.
  apply orb_false_iff in Hc as [Hst Hc].
  cbn [replace_from]. rewrite Hst. by rewrite IH.
Qed.

(** An occurrence at the front is replaced, and the scan goes on behind
    it. *)
Lemma replace_front old new s :
  old ≠ [] → replace old new (old ++ s) = new ++ replace old new s.
Proof.
  intros Hold. unfold replace.
  destruct old as [|o old]; [done|].
  change ((o :: old) ++ s) with (o :: (old ++ s)).
  cbn [replace_from].
  change (o :: old ++ s) with ((o :: old) ++ s).
  rewrite startswith_app.
  replace (length (o :: old) - 1)%nat with (length old) by (simpl; lia).
  by rewrite replace_from_skip.
Qed.

End StrFacts.

(** ** The task plan and the roster *)

Lemma plan_agents (t : str) : map agent (create_investigation_plan t) = assignment.
Proof. reflexivity. Qed.

Ltac target_inside :=
  lazymatch goal with
  | |- contains ?t (?a ++ ?b ++ ?t ++ ?c) = true =>
      exact (contains_mid (a ++ b) t c)
  end.

Ltac target_follows :=
  lazymatch goal with
  | |- startswith ((?a ++ ?b) ++ ?t) (?a ++ ?b ++ ?t ++ ?c) = true =>
      exact (startswith_app ((a ++ b) ++ t) c)
  end.

(** C1. For every target [t] the plan has exactly seven tasks, bound in
    order to lead analyst, social expert, technical analyst, behavior
    analyst, lead analyst, deep-search expert and verification expert; the
    description of the i-th task starts with the i-th opening
    (preliminary, social, technical, behavioral, aggregation, deep search,
    verification) followed by [t], so [t in description] holds for every
    task. *)
Theorem create_investigation_plan_seven_in_order (t : str) :
  length (create_investigation_plan t) = 7%nat
  ∧ map agent (create_investigation_plan t) = assignment
  ∧ Forall2
      (λ opening task,
         startswith (opening ++ t) (description task) = true
         ∧ contains t (description task) = true)
      openings (create_investigation_plan t).
Proof.
  split; [reflexivity|]. split; [reflexivity|].
  unfold create_investigation_plan, openings.
  cbn [app]. repeat constructor; cbn [description];
    first [target_inside | target_follows].
Qed.

Lemma roster (t : str) :
  agents (crew t) =
  [lead_analyst; social_expert; technical_analyst; behavior_analyst;
   verification_expert; deep_search_expert; task_keeper; context_analyst].
Proof. reflexivity. Qed.

(** The nine agent declarations are pairwise different. *)
Lemma agents_distinct (t : str) : NoDup (manager_agent :: agents (crew t)).
Proof. rewrite roster. apply (bool_decide_unpack _). by vm_compute. Qed.

Lemma assignment_in_roster (t : str) : Forall (λ a, a ∈ agents (crew t)) assignment.
Proof. rewrite roster. apply (bool_decide_unpack _). by vm_compute. Qed.

(** C7. The manager agent holds an empty tool list, is not among the
    crew's agents, is the assigned agent of none of the tasks of the plan,
    and is handed to the crew as its [manager_agent]. *)
Theorem manager_agent_only_coordinates (t : str) :
  tools manager_agent = []
  ∧ (manager_agent ∉ agents (crew t))
  ∧ Forall (λ task, agent task ≠ manager_agent) (create_investigation_plan t)
  ∧ crew_manager_agent (crew t) = manager_agent.
Proof.
  split; [reflexivity|].
  pose proof (agents_distinct t) as Hnd. apply NoDup_cons in Hnd as [Hm _].
  split; [exact Hm|]. split; [|reflexivity].
  apply Forall_forall. intros task Htask Heq. apply Hm. rewrite <- Heq.
  pose proof (assignment_in_roster t) as Hin.
  rewrite Forall_forall in Hin. apply Hin.
  rewrite <- (plan_agents t). by apply list_elem_of_fmap_2.
Qed.

(** C9. The crew lists eight distinct agents; the seven tasks are bound
    to six of them; the lead analyst is the agent of exactly the first and
    the fifth task; task keeper and context analyst are in the crew's
    agent list and are the agent of no task. *)
Theorem plan_uses_six_of_eight_agents (t : str) :
  let assigned := map agent (create_investigation_plan t) in
  length (agents (crew t)) = 8%nat
  ∧ NoDup (agents (crew t))
  ∧ Forall (λ a, a ∈ agents (crew t)) assigned
  ∧ length (remove_dups assigned) = 6%nat
  ∧ (∀ i : nat, assigned !! i = Some lead_analyst ↔ i = 0%nat ∨ i = 4%nat)
  ∧ (task_keeper ∈ agents (crew t))
  ∧ (context_analyst ∈ agents (crew t))
  ∧ (task_keeper ∉ assigned)
  ∧ (context_analyst ∉ assigned).
Proof.
  intros assigned. subst assigned. rewrite plan_agents.
  pose proof (agents_distinct t) as Hnd.
  apply NoDup_cons in Hnd as [_ Hnd].
  split; [reflexivity|]. split; [exact Hnd|].
  split; [apply assignment_in_roster|].
  split; [by vm_compute|].
  split.
  - intros i. unfold assignment. split.
    + do 7 (destruct i as [|i]; [first [by left | by right | by intros [=]]|]).
      by intros [=].
    + by intros [->| ->].
  - rewrite roster. repeat split; apply (bool_decide_unpack _); by vm_compute.
Qed.

(** ** The query normaliser *)

Lemma parse_osint_query_places (q : str) :
  parse_osint_query q =
  let text :=
    if contains prompt_echo q then strip (replace prompt_echo [] q) else q in
  query_head ++ text ++ query_middle ++ text ++ query_tail.
Proof.
  unfold parse_osint_query, query_head, query_middle, query_tail.
  cbv zeta. by rewrite <- !app_assoc.
Qed.

(** C5, as the code has it.  [parse_osint_query] is a total function that
    returns the fixed template with one text in its two places, the
    "Investigation target" line and the "Original query" line, around the
    four numbered instructions.  If the input does not contain the prompt
    echo, that text is the input as it is, surrounding whitespace
    included.  If the input contains the prompt echo anywhere, the text is
    the input with every occurrence removed and surrounding whitespace
    stripped afterwards; for an input that starts with the prompt echo and
    has no further occurrence, it is the rest of the input, stripped. *)
Theorem parse_osint_query_template (q : str) :
  ∃ text,
    parse_osint_query q =
      query_head ++ text ++ query_middle ++ text ++ query_tail
    ∧ (contains prompt_echo q = false → text = q)
    ∧ (contains prompt_echo q = true →
       text = strip (replace prompt_echo [] q))
    ∧ (∀ x, q = prompt_echo ++ x → contains prompt_echo x = false →
       text = strip x).
Proof.
  rewrite parse_osint_query_places. cbv zeta.
  eexists. split; [reflexivity|].
  split; [by intros ->|]. split; [by intros ->|].
  intros x -> Hx.
  pose proof (contains_mid [] prompt_echo x) as Hc.
  change ([] ++ prompt_echo ++ x) with (prompt_echo ++ x) in Hc. rewrite Hc.
  rewrite replace_front by done.
  by rewrite replace_absent.
Qed.

(** C5 as worded fails on the code in two ways.  A prompt echo that is
    not at the front is removed all the same, and an input without the
    prompt echo keeps its surrounding whitespace. *)
Lemma parse_osint_query_not_as_worded :
  parse_osint_query (lit "a Enter target for OSINT:b")
    = query_head ++ lit "a b" ++ query_middle ++ lit "a b" ++ query_tail
  ∧ parse_osint_query (lit "a Enter target for OSINT:b")
    ≠ parse_osint_query_as_worded (lit "a Enter target for OSINT:b")
  ∧ parse_osint_query (lit "  bob  ")
    = query_head ++ lit "  bob  " ++ query_middle ++ lit "  bob  " ++ query_tail
  ∧ parse_osint_query (lit "  bob  ")
    ≠ parse_osint_query_as_worded (lit "  bob  ").
Proof.
  split; [by vm_compute|]. split; [by vm_compute|].
  split; by vm_compute.
Qed.

(** C8. On the empty string both functions return: the normaliser gives
    the template with nothing in its two places, and the plan builder
    gives seven tasks, each the task it builds for any other target with
    the target taken out of the description. *)
Theorem empty_input_is_well_formed :
  parse_osint_query [] = query_head ++ query_middle ++ query_tail
  ∧ length (create_investigation_plan []) = 7%nat
  ∧ ∀ t : str,
      Forall2
        (λ task_e task_t,
           (∃ pre post,
              description task_t = pre ++ t ++ post
              ∧ description task_e = pre ++ post)
           ∧ expected_output task_e = expected_output task_t
           ∧ agent task_e = agent task_t)
        (create_investigation_plan []) (create_investigation_plan t).
Proof.
  split; [by vm_compute|]. split; [reflexivity|].
  intros t. unfold create_investigation_plan. cbn [app].
  repeat constructor; cbn [description];
    lazymatch goal with
    | |- ∃ pre post, ?a ++ ?b ++ t ++ ?c = _ ∧ _ =>
        exists (a ++ b), c; split; reflexivity
    end.
Qed.

(** ** The runner *)

Section Runner.

Context `{Orchestrator}.

Lemma World_eq (w1 w2 : World) :
  clock w1 = clock w2 → reads w1 = reads w2 → dirs w1 = dirs w2 →
  files w1 = files w2 → faults w1 = faults w2 → stdin w1 = stdin w2 →
  stdout w1 = stdout w2 → w1 = w2.
Proof. destruct w1, w2; simpl; congruence. Qed.

(** How [bind] and [try_except] run, one step at a time. *)
Lemma bind_return_eq {A B} (m : M A) (k : A → M B) w a w' X :
  m w = (Return a, w') → k a w' = X → bind m k w = X.
Proof. unfold bind. by intros -> <-. Qed.

Lemma bind_raise_eq {A B} (m : M A) (k : A → M B) w e w' :
  m w = (Raise e, w') → bind m k w = (Raise e, w').
Proof. unfold bind. by intros ->. Qed.

Lemma try_except_eq {A} (body : M A) (handler : exn → M A) w o w' X :
  body w = (o, w') →
  match o with
  | Return a => (Return a, w')
  | Raise e => handler e w'
  end = X →
  try_except body handler w = X.
Proof. unfold try_except. by intros -> <-. Qed.

Lemma crew_kickoff_eq (c : Crew) w o :
  kickoff c w = o → crew_kickoff c w = (o, w).
Proof. unfold crew_kickoff. by intros ->. Qed.

Ltac world_step :=
  cbn [fst snd clock reads dirs files faults stdin stdout name
       set_reads set_dirs set_files set_faults set_stdin set_stdout
       at_kickoff progress error_printed first_fault
       Nat.leb Nat.sub take drop concat report_chunks].

Ltac run_step K :=
  cbv beta zeta; world_step;
  rewrite ?lookup_insert_eq, ?insert_insert_eq; cbn [default from_option id];
  lazymatch goal with
  | |- bind (crew_kickoff _) _ _ = _ =>
      eapply bind_return_eq; [apply crew_kickoff_eq; exact K|]
  | |- bind _ _ _ = _ =>
      first [ eapply bind_return_eq; [reflexivity|]
            | eapply bind_raise_eq; reflexivity ]
  | |- ret _ _ = _ => reflexivity
  end.

Ltac same_file :=
  unfold report_path, separator; world_step;
  rewrite ?lookup_insert_eq, ?insert_insert_eq;
  cbn [default from_option id];
  rewrite ?lookup_insert_eq, ?insert_insert_eq;
  rewrite ?app_nil_r, <- ?app_assoc; reflexivity.

Ltac same_world :=
  refine (f_equal _ _); apply World_eq; world_step;
  [reflexivity | reflexivity | reflexivity | same_file
  | reflexivity | reflexivity | reflexivity].

Ltac run_through K :=
  unfold run_osint_investigation;
  eapply try_except_eq;
  [ repeat run_step K
  | cbv beta iota; unfold bind, print, ret; same_world ].

(** When the orchestrator raises. *)
Lemma run_kickoff_raises (T : str) (w : World) (e : exn) :
  kickoff (crew T) (at_kickoff w) = Raise e →
  run_osint_investigation T w = (Return None, error_printed e (at_kickoff w)).
Proof.
  intros K. unfold run_osint_investigation.
  eapply try_except_eq.
  - run_step K. cbv beta zeta.
    eapply bind_raise_eq. apply crew_kickoff_eq. exact K.
  - reflexivity.
Qed.

(** The runner, case by case: the orchestrator raises; or it returns and
    one of the seven file-system calls raises; or all goes through. *)
Lemma run_cases (T : str) (w : World) :
  match kickoff (crew T) (at_kickoff w) with
  | Raise e =>
      run_osint_investigation T w = (Return None, error_printed e (at_kickoff w))
  | Return r =>
      match first_fault 7 (faults w) with
      | Some (k, e) =>
          run_osint_investigation T w =
          (Return None, error_printed e (progress k (S k) T (output_str r) w))
      | None =>
          run_osint_investigation T w =
          (Return (Some r), progress 7 7 T (output_str r) w)
      end
  end.
Proof.
  destruct (kickoff (crew T) (at_kickoff w)) as [r|e] eqn:K;
    [|by apply run_kickoff_raises].
  destruct w as [c n d f l i o].
  cbn [faults].
  do 7 (destruct l as [|[e|] l];
        [world_step; run_through K | world_step; run_through K |]).
  world_step; run_through K.
Qed.

(** A run that returns a result went through all of its steps. *)
Lemma run_returns_result (T : str) (w w' : World) (r : CrewOutput) :
  run_osint_investigation T w = (Return (Some r), w') →
  kickoff (crew T) (at_kickoff w) = Return r
  ∧ first_fault 7 (faults w) = None
  ∧ w' = progress 7 7 T (output_str r) w.
Proof.
  intros Hrun. pose proof (run_cases T w) as Hc.
  destruct (kickoff (crew T) (at_kickoff w)) as [r0|e]; [|congruence].
  destruct (first_fault 7 (faults w)) as [[k e]|]; [congruence|].
  rewrite Hrun in Hc. by injection Hc as -> ->.
Qed.

Lemma report_path_inj (a b : str) :
  lit "osint_results/investigation_" ++ a ++ lit ".txt" =
  lit "osint_results/investigation_" ++ b ++ lit ".txt" → a = b.
Proof. intros Hp. apply app_inv_head in Hp. by apply app_inv_tail in Hp. Qed.

(** C6. Two runs for the same target, one after the other, that both
    return a result and whose file-name stamps differ, write two
    different files: after the second run the first report is still what
    the first run wrote, and the second report is in a file of its own. *)
Theorem two_runs_two_reports (T : str) (w w1 w2 : World) (r1 r2 : CrewOutput) :
  run_osint_investigation T w = (Return (Some r1), w1) →
  run_osint_investigation T w1 = (Return (Some r2), w2) →
  strftime (clock w (1 + reads w)) ≠ strftime (clock w (3 + reads w)) →
  report_path w ≠ report_path w1
  ∧ report_path w1 =
      lit "osint_results/investigation_" ++
      strftime (clock w (3 + reads w)) ++ lit ".txt"
  ∧ files w1 !! report_path w = Some (concat (report_chunks T (output_str r1)))
  ∧ files w2 !! report_path w = Some (concat (report_chunks T (output_str r1)))
  ∧ files w2 !! report_path w1 = Some (concat (report_chunks T (output_str r2))).
Proof.
  intros H1 H2 Hts.
  apply run_returns_result in H1 as (_ & _ & ->).
  apply run_returns_result in H2 as (_ & _ & ->).
  assert (report_path w ≠ report_path (progress 7 7 T (output_str r1) w)) as Hp.
  { unfold report_path. cbn [clock reads progress].
    intros Heq. apply Hts. by apply report_path_inj in Heq. }
  split; [exact Hp|]. split; [reflexivity|].
  cbn [files progress Nat.leb Nat.sub take] in *.
  split; [by rewrite lookup_insert_eq|].
  split; [|by rewrite lookup_insert_eq].
  rewrite lookup_insert_ne by done. by rewrite lookup_insert_eq.
Qed.

(** C10. The entry point prints the results only if the run's result is
    truthy.  Whatever the run returns, a falsy result ([None] after a
    failure, or a falsy result object) makes the entry point stop in the
    world the run left; a truthy one makes it print the heading and the
    result.  In particular, when the orchestrator returns a falsy result
    object and the file-system calls go through, the report file is
    written and standard output holds the prompt only. *)
Theorem main_prints_only_truthy_results (w : World) (line : str) (rest : list str) :
  stdin w = line :: rest →
  let w0 := set_stdin rest (set_stdout (stdout w ++ lit "Enter target for OSINT: ") w) in
  let T := parse_osint_query line in
  (∀ result w1,
     run_osint_investigation T w0 = (Return result, w1) →
     main w =
       (Return tt,
        if truth result
        then set_stdout
               ((stdout w1 ++ (nl ++ lit "Investigation results:") ++ nl)
                ++ str_of result ++ nl) w1
        else w1))
  ∧ (∀ r,
       kickoff (crew T) (at_kickoff w0) = Return r →
       output_bool r = false →
       first_fault 7 (faults w0) = None →
       ∃ w',
         main w = (Return tt, w')
         ∧ files w' !! report_path w0 = Some (concat (report_chunks T (output_str r)))
         ∧ stdout w' = stdout w ++ lit "Enter target for OSINT: ").
Proof.
  intros Hin w0 T.
  assert (input (lit "Enter target for OSINT: ") w = (Return line, w0)) as Hinput.
  { unfold input. cbn [stdin set_stdout]. by rewrite Hin. }
  assert (∀ result w1,
     run_osint_investigation T w0 = (Return result, w1) →
     main w =
       (Return tt,
        if truth result
        then set_stdout
               ((stdout w1 ++ (nl ++ lit "Investigation results:") ++ nl)
                ++ str_of result ++ nl) w1
        else w1)) as Hmain.
  { intros result w1 Hrun. unfold main.
    eapply bind_return_eq; [exact Hinput|]. cbv zeta.
    eapply bind_return_eq; [exact Hrun|].
    by destruct (truth result). }
  split; [exact Hmain|].
  intros r K Hfalsy Hf. pose proof (run_cases T w0) as Hc.
  rewrite K, Hf in Hc. apply Hmain in Hc. cbn [truth] in Hc.
  rewrite Hfalsy in Hc. eexists. split; [exact Hc|].
  split; [|reflexivity].
  cbn [files progress Nat.leb Nat.sub take]. by rewrite lookup_insert_eq.
Qed.

End Runner.

(** ** The properties at concrete inputs *)

Lemma two_runs_two_reports_at_bob :
  report_path (morning [] [])
    ≠ report_path
        (snd (@run_osint_investigation (answering numbered) (lit "bob")
                (morning [] [])))
  ∧ report_path
      (snd (@run_osint_investigation (answering numbered) (lit "bob")
              (morning [] [])))
    = lit "osint_results/investigation_" ++
      strftime (clock (morning [] []) (3 + reads (morning [] []))%nat) ++
      lit ".txt"
  ∧ files
      (snd (@run_osint_investigation (answering numbered) (lit "bob")
              (morning [] [])))
      !! report_path (morning [] [])
    = Some (concat (report_chunks (lit "bob") (lit "findings #01")))
  ∧ files
      (snd (@run_osint_investigation (answering numbered) (lit "bob")
              (snd (@run_osint_investigation (answering numbered) (lit "bob")
                      (morning [] [])))))
      !! report_path (morning [] [])
    = Some (concat (report_chunks (lit "bob") (lit "findings #01")))
  ∧ files
      (snd (@run_osint_investigation (answering numbered) (lit "bob")
              (snd (@run_osint_investigation (answering numbered) (lit "bob")
                      (morning [] [])))))
      !! report_path
           (snd (@run_osint_investigation (answering numbered) (lit "bob")
                   (morning [] [])))
    = Some (concat (report_chunks (lit "bob") (lit "findings #03"))).
Proof.
  apply (@two_runs_two_reports (answering numbered) (lit "bob")
           (morning [] [])
           (snd (@run_osint_investigation (answering numbered) (lit "bob")
                   (morning [] [])))
           (snd (@run_osint_investigation (answering numbered) (lit "bob")
                   (snd (@run_osint_investigation (answering numbered)
                           (lit "bob") (morning [] [])))))
           (lit "findings #01") (lit "findings #03")).
  - by vm_compute.
  - by vm_compute.
  - by vm_compute.
Defined.

Lemma main_prints_only_truthy_results_at_bob :
  let w0 :=
    set_stdin []
      (set_stdout (stdout (morning [] [lit "bob"]) ++ lit "Enter target for OSINT: ")
         (morning [] [lit "bob"])) in
  let T := parse_osint_query (lit "bob") in
  (∀ result w1,
     @run_osint_investigation (answering (λ _, [])) T w0 = (Return result, w1) →
     @main (answering (λ _, [])) (morning [] [lit "bob"]) =
       (Return tt,
        if @truth (answering (λ _, [])) result
        then set_stdout
               ((stdout w1 ++ (nl ++ lit "Investigation results:") ++ nl)
                ++ @str_of (answering (λ _, [])) result ++ nl) w1
        else w1))
  ∧ (∀ r,
       @kickoff (answering (λ _, [])) (@crew T) (at_kickoff w0) = Return r →
       @output_bool (answering (λ _, [])) r = false →
       first_fault 7 (faults w0) = None →
       ∃ w',
         @main (answering (λ _, [])) (morning [] [lit "bob"]) = (Return tt, w')
         ∧ files w' !! report_path w0
           = Some (concat (report_chunks T (@output_str (answering (λ _, [])) r)))
         ∧ stdout w'
           = stdout (morning [] [lit "bob"]) ++ lit "Enter target for OSINT: ").
Proof.
  apply (@main_prints_only_truthy_results (answering (λ _, []))
           (morning [] [lit "bob"]) (lit "bob") []).
  reflexivity.
Defined.

(** * Further properties *)

(** ** Strings: [strip] *)

Section StripFacts.

Implicit Types s sub ws : str.

Lemma contains_trans a b c :
  contains a b = true → contains b c = true → contains a c = true.
Proof.
  intros Hab Hbc.
  apply contains_substring in Hab as (p1 & q1 & ->).
  apply contains_substring in Hbc as (p2 & q2 & ->).
  apply contains_substring. exists (p2 ++ p1), (q1 ++ q2).
  by rewrite <- !app_assoc.
Qed.

(** [lstrip] takes whitespace off the front and nothing else. *)
Lemma lstrip_suffix s : ∃ ws, s = ws ++ lstrip s ∧ forallb isspace ws = true.
Proof.
  induction s as [|c s (ws & Hs & Hws)]; [by exists []|]. simpl.
  destruct (isspace c) eqn:Hc.
  - exists (c :: ws). simpl. rewrite Hc, Hws. split; [by f_equal|done].
  - by exists [].
Qed.

Lemma rstrip_prefix s : ∃ ws, s = rstrip s ++ ws ∧ forallb isspace ws = true.
Proof.
  unfold rstrip. destruct (lstrip_suffix (rev s)) as (ws & Hs & Hws).
  exists (rev ws). split.
  - rewrite <- rev_app_distr, <- Hs. by rewrite rev_involutive.
  - rewrite forallb_forall in *. intros x Hx. apply Hws. by apply in_rev.
Qed.

(** What [strip] returns is a piece of its argument. *)
Lemma strip_piece s : ∃ l r, s = l ++ strip s ++ r.
Proof.
  unfold strip.
  destruct (lstrip_suffix s) as (l & Hl & _).
  destruct (rstrip_prefix (lstrip s)) as (r & Hr & _).
  exists l, r. by rewrite <- Hr.
Qed.

Lemma contains_strip sub s :
  contains sub s = false → contains sub (strip s) = false.
Proof.
  intros Hs. destruct (contains sub (strip s)) eqn:Hc; [|done].
  destruct (strip_piece s) as (l & r & Hp).
  rewrite <- Hs. symmetry. eapply contains_trans; [exact Hc|].
  rewrite Hp at 2. apply contains_mid.
Qed.

Lemma lstrip_blank ws : forallb isspace ws = true → lstrip ws = [].
Proof.
  induction ws as [|c ws IH]; [done|]. simpl.
  intros [Hc Hws]%andb_true_iff. rewrite Hc. by apply IH.
Qed.

Lemma lstrip_idem s : lstrip (lstrip s) = lstrip s.
Proof.
  induction s as [|c s IH]; [done|]. simpl.
  destruct (isspace c) eqn:Hc; [done|]. simpl. by rewrite Hc.
Qed.

Lemma rstrip_snoc s c :
  rstrip (s ++ [c]) = if isspace c then rstrip s else s ++ [c].
Proof.
  unfold rstrip. rewrite rev_app_distr. simpl.
  destruct (isspace c); [done|]. simpl. by rewrite rev_involutive.
Qed.

Lemma rstrip_idem s : rstrip (rstrip s) = rstrip s.
Proof. unfold rstrip. by rewrite rev_involutive, lstrip_idem. Qed.

(** Taking whitespace off the end does not uncover whitespace at the
    front. *)
Lemma lstrip_rstrip s : lstrip s = s → lstrip (rstrip s) = rstrip s.
Proof.
  induction s as [|c s IH] using rev_ind; [done|].
  intros Hs. rewrite rstrip_snoc. destruct (isspace c) eqn:Hc; [|done].
  apply IH. destruct s as [|a s]; [done|].
  simpl in *. destruct (isspace a); [|done].
  exfalso. destruct (lstrip_suffix (s ++ [c])) as (ws & Hws & _).
  rewrite Hs in Hws. apply (f_equal length) in Hws.
  rewrite ?length_app, ?length_cons, ?length_app in Hws. simpl in Hws. lia.
Qed.

Lemma strip_idem s : strip (strip s) = strip s.
Proof.
  unfold strip.
  rewrite (lstrip_rstrip (lstrip s)) by apply lstrip_idem.
  apply rstrip_idem.
Qed.

Lemma blank_has_no_prompt_echo ws :
  forallb isspace ws = true → contains prompt_echo ws = false.
Proof.
  intros Hws. destruct (contains prompt_echo ws) eqn:Hc; [|done].
  apply contains_substring in Hc as (l & r & ->).
  rewrite forallb_forall in Hws.
  assert (isspace 69 = true) as Habs; [|done].
  apply Hws. apply in_or_app. right. by left.
Qed.

End StripFacts.

(** ** The query normaliser, further *)

Lemma parse_osint_query_text (q : str) :
  parse_osint_query q =
  query_head ++ query_text q ++ query_middle ++ query_text q ++ query_tail.
Proof. apply parse_osint_query_places. Qed.

Lemma query_text_absent (q : str) :
  contains prompt_echo q = false → query_text q = q.
Proof. unfold query_text. by intros ->. Qed.

Lemma query_text_front (x : str) :
  contains prompt_echo x = false → query_text (prompt_echo ++ x) = strip x.
Proof.
  intros Hx. unfold query_text.
  pose proof (contains_mid [] prompt_echo x) as Hc.
  change ([] ++ prompt_echo ++ x) with (prompt_echo ++ x) in Hc. rewrite Hc.
  rewrite replace_front by done. by rewrite replace_absent.
Qed.

(** X1. The output of [parse_osint_query] determines the text it embeds:
    two inputs give the same output exactly if their normalised texts
    agree; on inputs without the prompt echo the function is injective. *)
Theorem parse_osint_query_determines_text (q1 q2 : str) :
  (parse_osint_query q1 = parse_osint_query q2 ↔ query_text q1 = query_text q2)
  ∧ (contains prompt_echo q1 = false → contains prompt_echo q2 = false →
     parse_osint_query q1 = parse_osint_query q2 → q1 = q2).
Proof.
  assert (parse_osint_query q1 = parse_osint_query q2 →
          query_text q1 = query_text q2) as Hinj.
  { rewrite !parse_osint_query_text. intros Heq.
    apply app_inv_head in Heq.
    assert (length (query_text q1) = length (query_text q2)) as Hlen.
    { apply (f_equal length) in Heq. rewrite !length_app in Heq. lia. }
    by apply app_inj_1 in Heq as [? _]. }
  split; [split; [exact Hinj|]|].
  - rewrite !parse_osint_query_text. by intros ->.
  - intros H1 H2 Heq. apply Hinj in Heq.
    by rewrite !query_text_absent in Heq.
Qed.

(** X2. A line that echoes the prompt, ["Enter target for OSINT:" + x]
    with no further echo in [x], is normalised like [x] with its
    surrounding whitespace taken off. *)
Theorem parse_osint_query_drops_echo (x : str) :
  contains prompt_echo x = false →
  parse_osint_query (prompt_echo ++ x) = parse_osint_query (strip x).
Proof.
  intros Hx. rewrite !parse_osint_query_text.
  rewrite (query_text_front x Hx).
  by rewrite (query_text_absent (strip x)) by by apply contains_strip.
Qed.

(** X3. After the prompt echo, whitespace alone counts as an empty query;
    without the echo, whitespace is a query of its own. *)
Theorem parse_osint_query_blank (ws : str) :
  forallb isspace ws = true →
  parse_osint_query (prompt_echo ++ ws) = parse_osint_query []
  ∧ (ws ≠ [] → parse_osint_query ws ≠ parse_osint_query []).
Proof.
  intros Hws. pose proof (blank_has_no_prompt_echo ws Hws) as Hc. split.
  - rewrite !parse_osint_query_text, (query_text_front ws Hc).
    unfold strip. by rewrite (lstrip_blank ws Hws).
  - intros Hne Heq. apply Hne.
    rewrite !parse_osint_query_text, (query_text_absent ws Hc) in Heq.
    apply app_inv_head in Heq. apply (f_equal length) in Heq.
    rewrite !length_app in Heq. apply length_zero_iff_nil.
    change (length (query_text [])) with 0%nat in Heq. lia.
Qed.

(** X4. When the input contains the prompt echo, the embedded text has
    no whitespace at either end. *)
Theorem parse_osint_query_text_is_stripped (q : str) :
  contains prompt_echo q = true →
  lstrip (query_text q) = query_text q
  ∧ rstrip (query_text q) = query_text q
  ∧ strip (query_text q) = query_text q.
Proof.
  intros Hq. unfold query_text. rewrite Hq.
  split; [|split].
  - unfold strip. apply lstrip_rstrip, lstrip_idem.
  - unfold strip. apply rstrip_idem.
  - apply strip_idem.
Qed.

(** X5. Normalising twice changes nothing on a line of the intended
    form (the echo, then text without an echo); in general it does: there
    is a line whose normalised text still contains the echo, so removing
    the echo is not idempotent. *)
Theorem query_text_twice :
  (∀ x, contains prompt_echo x = false →
        query_text (query_text (prompt_echo ++ x)) = query_text (prompt_echo ++ x))
  ∧ (∃ q, contains prompt_echo (query_text q) = true
          ∧ query_text (query_text q) ≠ query_text q).
Proof.
  split.
  - intros x Hx. rewrite (query_text_front x Hx).
    apply query_text_absent. by apply contains_strip.
  - exists (lit "Enter target Enter target for OSINT:for OSINT:").
    split; by vm_compute.
Qed.

Lemma plan_contains_target (t : str) :
  Forall (λ task, contains t (description task) = true)
    (create_investigation_plan t).
Proof.
  unfold create_investigation_plan. cbn [app].
  repeat constructor; cbn [description]; target_inside.
Qed.

(** X6. The entry point's composition: for every line, each task that
    the crew built for [parse_osint_query line] carries, inside its
    description, both the "Investigation target" line and the
    "Original query" line with the normalised text. *)
Theorem crew_tasks_carry_query (line : str) :
  Forall
    (λ task,
       contains (lit "Investigation target: " ++ query_text line ++ nl)
         (description task) = true
       ∧ contains (lit "Original query: " ++ query_text line ++ nl)
           (description task) = true)
    (tasks (crew (parse_osint_query line))).
Proof.
  change (tasks (crew (parse_osint_query line)))
    with (create_investigation_plan (parse_osint_query line)).
  eapply Forall_impl; [apply plan_contains_target|].
  intros task Htask. cbv beta in Htask. split.
  - eapply contains_trans; [|exact Htask].
    rewrite parse_osint_query_text.
    apply contains_substring.
    exists (nl ++ lit "    "),
      (drop 1 query_middle ++ query_text line ++ query_tail).
    rewrite <- !app_assoc. reflexivity.
  - eapply contains_trans; [|exact Htask].
    rewrite parse_osint_query_text.
    apply contains_substring.
    exists (query_head ++ query_text line ++ nl ++
      lit "    " ++ nl ++
      lit "    Required:" ++ nl ++
      lit "    1. Find all available information on the target" ++ nl ++
      lit "    2. Verify provided assumptions about age" ++ nl ++
      lit "    3. If requested - determine the birth month" ++ nl ++
      lit "    4. If requested - check presence on specialized forums" ++ nl ++
      lit "    " ++ nl ++ lit "    "), (lit "    ").
    unfold query_head, query_middle, query_tail.
    rewrite <- !app_assoc. reflexivity.
Qed.

(** ** The task plan and the roster, further *)

(** X7. Different targets give different plans: the target can be read
    back from the plan. *)
Theorem create_investigation_plan_injective (t1 t2 : str) :
  create_investigation_plan t1 = create_investigation_plan t2 ↔ t1 = t2.
Proof.
  split; [|by intros ->].
  unfold create_investigation_plan. cbn [app]. intros Heq.
  apply (f_equal (λ l, description <$> head l)) in Heq.
  cbn [head fmap option_fmap option_map description] in Heq.
  apply (inj Some) in Heq. apply (app_inv_head nl) in Heq.
  apply app_inv_head in Heq. by apply app_inv_tail in Heq.
Qed.

(** X8. Every agent of the crew, and so the agent of every task, holds
    the search tool; the scrape tool is held by exactly the social,
    technical, verification and deep-search agents; and the nine roles
    (manager included) are pairwise different, so a role names one agent. *)
Theorem roster_tools_and_roles (t : str) :
  Forall (λ a, search_tool ∈ tools a) (agents (crew t))
  ∧ Forall (λ task, search_tool ∈ tools (agent task)) (create_investigation_plan t)
  ∧ filter (λ a, scrape_tool ∈ tools a) (agents (crew t))
    = [social_expert; technical_analyst; verification_expert; deep_search_expert]
  ∧ NoDup (map role (manager_agent :: agents (crew t))).
Proof.
  rewrite roster. split; [|split; [|split]].
  - apply (bool_decide_unpack _). by vm_compute.
  - assert (Forall (λ a, search_tool ∈ tools a) assignment) as Ha.
    { apply (bool_decide_unpack _). by vm_compute. }
    rewrite <- (plan_agents t) in Ha.
    pose proof (proj1 (Forall_forall _ _) Ha) as Hall.
    apply Forall_forall. intros task Htask. apply Hall.
    by apply list_elem_of_fmap_2.
  - by vm_compute.
  - apply (bool_decide_unpack _). by vm_compute.
Qed.

(** ** The runner, further *)

Section RunnerFurther.

Context `{Orchestrator}.

(** The three ways a run can go. *)
Lemma run_world (T : str) (w : World) :
  (∃ e,
     kickoff (crew T) (at_kickoff w) = Raise e
     ∧ run_osint_investigation T w = (Return None, error_printed e (at_kickoff w)))
  ∨ (∃ r k e,
       kickoff (crew T) (at_kickoff w) = Return r
       ∧ first_fault 7 (faults w) = Some (k, e)
       ∧ run_osint_investigation T w =
           (Return None, error_printed e (progress k (S k) T (output_str r) w)))
  ∨ (∃ r,
       kickoff (crew T) (at_kickoff w) = Return r
       ∧ first_fault 7 (faults w) = None
       ∧ run_osint_investigation T w =
           (Return (Some r), progress 7 7 T (output_str r) w)).
Proof.
  pose proof (run_cases T w) as Hc.
  destruct (kickoff (crew T) (at_kickoff w)) as [r|e].
  - destruct (first_fault 7 (faults w)) as [[k e]|].
    + right. left. by exists r, k, e.
    + right. right. by exists r.
  - left. by exists e.
Qed.

(** X11. What a run leaves alone, whatever its outcome: it reads no
    input and does not change the clock; it removes no directory and no
    file and changes no file but its own report file; it reads the clock
    once or twice; and it only appends to standard output. *)
Theorem run_osint_investigation_frame (T : str) (w : World) :
  let w' := snd (run_osint_investigation T w) in
  stdin w' = stdin w
  ∧ clock w' = clock w
  ∧ dirs w ⊆ dirs w'
  ∧ (∀ p, p ≠ report_path w → files w' !! p = files w !! p)
  ∧ (∀ p, is_Some (files w !! p) → is_Some (files w' !! p))
  ∧ (reads w' = S (reads w) ∨ reads w' = S (S (reads w)))
  ∧ (∃ out, stdout w' = stdout w ++ out).
Proof.
  assert (∀ k R e,
    let w' := error_printed e (progress k (S k) T R w) in
    dirs w ⊆ dirs w'
    ∧ (∀ p, p ≠ report_path w → files w' !! p = files w !! p)
    ∧ (∀ p, is_Some (files w !! p) → is_Some (files w' !! p))) as Hfail.
  { intros k R e. cbn [dirs files progress error_printed set_stdout].
    split; [|split].
    - destruct (1 <=? k)%nat; [apply union_subseteq_r|done].
    - intros p Hp. destruct (2 <=? k)%nat; [|done]. by rewrite lookup_insert_ne.
    - intros p Hp. destruct (2 <=? k)%nat; [|done].
      destruct (decide (report_path w = p)) as [<-|Hne].
      + rewrite lookup_insert_eq. by eexists.
      + by rewrite lookup_insert_ne. }
  destruct (run_world T w) as [(e & _ & ->)|[(r & k & e & _ & _ & ->)|(r & _ & _ & ->)]];
    cbn [snd].
  - repeat split; try done; [by left | by eexists].
  - destruct (Hfail k (output_str r) e) as (Hd & Hf & Hs).
    repeat split; try done; [by right | by eexists].
  - cbn [stdin clock dirs files reads stdout progress Nat.leb].
    split; [done|]. split; [done|]. split; [apply union_subseteq_r|].
    split; [|split; [|split]].
    + intros p Hp. by rewrite lookup_insert_ne.
    + intros p Hp. destruct (decide (report_path w = p)) as [<-|Hne].
      * rewrite lookup_insert_eq. by eexists.
      * by rewrite lookup_insert_ne.
    + by right.
    + exists []. by rewrite app_nil_r.
Qed.

(** X12. Two runs, one after the other, that both return a result and
    whose file-name stamps agree (the clock showed the same second) write
    to the same file: the second report replaces the first, and the disk
    is as if only the second run had taken place. *)
Theorem same_stamp_overwrites (T1 T2 : str) (w w1 w2 : World) (r1 r2 : CrewOutput) :
  run_osint_investigation T1 w = (Return (Some r1), w1) →
  run_osint_investigation T2 w1 = (Return (Some r2), w2) →
  strftime (clock w (1 + reads w)) = strftime (clock w (3 + reads w)) →
  report_path w1 = report_path w
  ∧ files w1 !! report_path w = Some (report T1 (output_str r1))
  ∧ files w2 !! report_path w = Some (report T2 (output_str r2))
  ∧ files w2 = <[ report_path w := report T2 (output_str r2) ]> (files w).
Proof.
  intros H1 H2 Hts.
  apply run_returns_result in H1 as (_ & _ & ->).
  apply run_returns_result in H2 as (_ & _ & ->).
  assert (report_path (progress 7 7 T1 (output_str r1) w) = report_path w) as Hp.
  { unfold report_path. cbn [clock reads progress].
    cbn [Nat.add] in Hts. by rewrite <- Hts. }
  split; [exact Hp|].
  cbn [files progress Nat.leb Nat.sub take]. rewrite Hp.
  split; [by rewrite lookup_insert_eq|].
  split; [by rewrite lookup_insert_eq|].
  by rewrite insert_insert_eq.
Qed.

End RunnerFurther.

(** ** File-name stamps *)

Lemma digit_eq (a b : N) : digit a = digit b → a mod 10 = b mod 10.
Proof. unfold digit. lia. Qed.

Lemma div10_step (a b : N) : a / 10 = b / 10 → a mod 10 = b mod 10 → a = b.
Proof.
  intros Hd Hm. rewrite (N.div_mod a 10), (N.div_mod b 10) by done.
  by rewrite Hd, Hm.
Qed.

Lemma dec2_inj (a b : N) : a < 100 → b < 100 → dec2 a = dec2 b → a = b.
Proof.
  unfold dec2. intros Ha Hb [= H1%digit_eq H2%digit_eq].
  apply div10_step; [|done].
  rewrite !N.mod_small in H1; [done|..]; by apply N.Div0.div_lt_upper_bound.
Qed.

Lemma dec4_inj (a b : N) : a < 10000 → b < 10000 → dec4 a = dec4 b → a = b.
Proof.
  unfold dec4. intros Ha Hb [= H1%digit_eq H2%digit_eq H3%digit_eq H4%digit_eq].
  rewrite !N.mod_small in H1 by by apply N.Div0.div_lt_upper_bound.
  apply div10_step; [|done].
  apply div10_step; [|done].
  rewrite !N.Div0.div_div.
  apply div10_step; [|done].
  rewrite !N.Div0.div_div. exact H1.
Qed.

(** The stamp tells the reading, to the second. *)
Lemma strftime_inj (a b : datetime) :
  valid_datetime a → valid_datetime b → strftime a = strftime b → a = b.
Proof.
  intros (Hy & Hm & Hd & Hh & Hmi & Hs) (Hy' & Hm' & Hd' & Hh' & Hmi' & Hs').
  destruct a as [y m d h mi s], b as [y' m' d' h' mi' s'].
  unfold strftime. cbn [year month day hour minute second] in *.
  intros Heq.
  apply app_inj_1 in Heq as [H1 Heq]; [|done].
  apply app_inj_1 in Heq as [H2 Heq]; [|done].
  apply app_inj_1 in Heq as [H3 Heq]; [|done].
  apply app_inv_head in Heq.
  apply app_inj_1 in Heq as [H4 Heq]; [|done].
  apply app_inj_1 in Heq as [H5 H6]; [|done].
  apply dec4_inj in H1; [|lia..].
  apply dec2_inj in H2; [|lia..]. apply dec2_inj in H3; [|lia..].
  apply dec2_inj in H4; [|lia..]. apply dec2_inj in H5; [|lia..].
  apply dec2_inj in H6; [|lia..]. by subst.
Qed.

Section EntryPoint.

Context `{Orchestrator}.

(** X13. Two runs, one after the other, that both return a result and
    whose second clock readings are different dates and times (to the
    second) write two different files, and both reports are on disk after
    the second run. *)
Theorem distinct_seconds_distinct_reports
    (T1 T2 : str) (w w1 w2 : World) (r1 r2 : CrewOutput) :
  run_osint_investigation T1 w = (Return (Some r1), w1) →
  run_osint_investigation T2 w1 = (Return (Some r2), w2) →
  valid_datetime (clock w (1 + reads w)) →
  valid_datetime (clock w (3 + reads w)) →
  clock w (1 + reads w) ≠ clock w (3 + reads w) →
  report_path w ≠ report_path w1
  ∧ files w2 !! report_path w = Some (report T1 (output_str r1))
  ∧ files w2 !! report_path w1 = Some (report T2 (output_str r2)).
Proof.
  intros H1 H2 Hv1 Hv3 Hne.
  apply run_returns_result in H1 as (_ & _ & ->).
  apply run_returns_result in H2 as (_ & _ & ->).
  assert (report_path w ≠ report_path (progress 7 7 T1 (output_str r1) w)) as Hp.
  { unfold report_path. cbn [clock reads progress].
    intros Heq. apply Hne. apply report_path_inj in Heq.
    by apply strftime_inj. }
  split; [exact Hp|].
  cbn [files progress Nat.leb Nat.sub take] in *.
  split; [|by rewrite lookup_insert_eq].
  rewrite lookup_insert_ne by done. by rewrite lookup_insert_eq.
Qed.

(** X14. The report does not tell where the target ends and the result
    begins: a target that itself holds a separator line, and a result
    that starts with the rest of that target and a separator line, give
    the same report file. *)
Theorem report_is_ambiguous (a b c : str) (w : World) (r1 r2 : CrewOutput) :
  kickoff (crew (a ++ nl ++ separator ++ b)) (at_kickoff w) = Return r1 →
  output_str r1 = c →
  kickoff (crew a) (at_kickoff w) = Return r2 →
  output_str r2 = b ++ nl ++ separator ++ c →
  first_fault 7 (faults w) = None →
  fst (run_osint_investigation (a ++ nl ++ separator ++ b) w) = Return (Some r1)
  ∧ fst (run_osint_investigation a w) = Return (Some r2)
  ∧ files (snd (run_osint_investigation (a ++ nl ++ separator ++ b) w))
    = files (snd (run_osint_investigation a w)).
Proof.
  intros K1 E1 K2 E2 Hf.
  pose proof (run_cases (a ++ nl ++ separator ++ b) w) as Hc1.
  pose proof (run_cases a w) as Hc2.
  rewrite K1, Hf in Hc1. rewrite K2, Hf in Hc2. rewrite Hc1, Hc2.
  split; [done|]. split; [done|].
  cbn [snd files progress Nat.leb Nat.sub take concat report_chunks].
  rewrite E1, E2. f_equal. by rewrite <- !app_assoc.
Qed.


End EntryPoint.

(** ** The further properties at concrete inputs *)

Lemma parse_osint_query_drops_echo_at_bob :
  parse_osint_query (prompt_echo ++ lit "  bob ")
  = parse_osint_query (strip (lit "  bob ")).
Proof. apply (parse_osint_query_drops_echo (lit "  bob ")). by vm_compute. Defined.

Lemma parse_osint_query_blank_at_spaces :
  parse_osint_query (prompt_echo ++ lit "   ") = parse_osint_query []
  ∧ (lit "   " ≠ [] → parse_osint_query (lit "   ") ≠ parse_osint_query []).
Proof. apply (parse_osint_query_blank (lit "   ")). by vm_compute. Defined.

Lemma parse_osint_query_text_is_stripped_at_bob :
  lstrip (query_text (lit "Enter target for OSINT:  bob "))
    = query_text (lit "Enter target for OSINT:  bob ")
  ∧ rstrip (query_text (lit "Enter target for OSINT:  bob "))
    = query_text (lit "Enter target for OSINT:  bob ")
  ∧ strip (query_text (lit "Enter target for OSINT:  bob "))
    = query_text (lit "Enter target for OSINT:  bob ").
Proof.
  apply (parse_osint_query_text_is_stripped (lit "Enter target for OSINT:  bob ")).
  by vm_compute.
Defined.

Lemma same_stamp_overwrites_at_bob :
  report_path
    (snd (@run_osint_investigation (answering numbered) (lit "bob")
            (standstill [] [])))
  = report_path (standstill [] [])
  ∧ files
      (snd (@run_osint_investigation (answering numbered) (lit "bob")
              (standstill [] [])))
      !! report_path (standstill [] [])
    = Some (report (lit "bob") (lit "findings #01"))
  ∧ files
      (snd (@run_osint_investigation (answering numbered) (lit "alice")
              (snd (@run_osint_investigation (answering numbered) (lit "bob")
                      (standstill [] [])))))
      !! report_path (standstill [] [])
    = Some (report (lit "alice") (lit "findings #03"))
  ∧ files
      (snd (@run_osint_investigation (answering numbered) (lit "alice")
              (snd (@run_osint_investigation (answering numbered) (lit "bob")
                      (standstill [] [])))))
    = <[ report_path (standstill [] []) :=
         report (lit "alice") (lit "findings #03") ]>
        (files (standstill [] [])).
Proof.
  apply (@same_stamp_overwrites (answering numbered) (lit "bob") (lit "alice")
           (standstill [] [])
           (snd (@run_osint_investigation (answering numbered) (lit "bob")
                   (standstill [] [])))
           (snd (@run_osint_investigation (answering numbered) (lit "alice")
                   (snd (@run_osint_investigation (answering numbered)
                           (lit "bob") (standstill [] [])))))
           (lit "findings #01") (lit "findings #03")).
  - by vm_compute.
  - by vm_compute.
  - by vm_compute.
Defined.

Lemma distinct_seconds_distinct_reports_at_bob :
  report_path (morning [] [])
    ≠ report_path
        (snd (@run_osint_investigation (answering numbered) (lit "bob")
                (morning [] [])))
  ∧ files
      (snd (@run_osint_investigation (answering numbered) (lit "alice")
              (snd (@run_osint_investigation (answering numbered) (lit "bob")
                      (morning [] [])))))
      !! report_path (morning [] [])
    = Some (report (lit "bob") (lit "findings #01"))
  ∧ files
      (snd (@run_osint_investigation (answering numbered) (lit "alice")
              (snd (@run_osint_investigation (answering numbered) (lit "bob")
                      (morning [] [])))))
      !! report_path
           (snd (@run_osint_investigation (answering numbered) (lit "bob")
                   (morning [] [])))
    = Some (report (lit "alice") (lit "findings #03")).
Proof.
  apply (@distinct_seconds_distinct_reports (answering numbered)
           (lit "bob") (lit "alice") (morning [] [])
           (snd (@run_osint_investigation (answering numbered) (lit "bob")
                   (morning [] [])))
           (snd (@run_osint_investigation (answering numbered) (lit "alice")
                   (snd (@run_osint_investigation (answering numbered)
                           (lit "bob") (morning [] [])))))
           (lit "findings #01") (lit "findings #03")).
  - by vm_compute.
  - by vm_compute.
  - unfold valid_datetime. cbn. lia.
  - unfold valid_datetime. cbn. lia.
  - by vm_compute.
Defined.

(** An orchestrator that answers ["z"] to the crew built for the target
    ["x" / separator line / "y"], and ["y" / separator line / "z"] to any
    other crew. *)
Lemma report_is_ambiguous_at_xyz :
  fst (@run_osint_investigation
         (scripted (λ c,
            if decide (c = crew (lit "x" ++ nl ++ separator ++ lit "y"))
            then lit "z" else lit "y" ++ nl ++ separator ++ lit "z"))
         (lit "x" ++ nl ++ separator ++ lit "y") (morning [] []))
    = Return (Some (lit "z"))
  ∧ fst (@run_osint_investigation
           (scripted (λ c,
              if decide (c = crew (lit "x" ++ nl ++ separator ++ lit "y"))
              then lit "z" else lit "y" ++ nl ++ separator ++ lit "z"))
           (lit "x") (morning [] []))
    = Return (Some (lit "y" ++ nl ++ separator ++ lit "z"))
  ∧ files
      (snd (@run_osint_investigation
              (scripted (λ c,
                 if decide (c = crew (lit "x" ++ nl ++ separator ++ lit "y"))
                 then lit "z" else lit "y" ++ nl ++ separator ++ lit "z"))
              (lit "x" ++ nl ++ separator ++ lit "y") (morning [] [])))
    = files
        (snd (@run_osint_investigation
                (scripted (λ c,
                   if decide (c = crew (lit "x" ++ nl ++ separator ++ lit "y"))
                   then lit "z" else lit "y" ++ nl ++ separator ++ lit "z"))
                (lit "x") (morning [] []))).
Proof.
  apply (@report_is_ambiguous
           (scripted (λ c,
              if decide (c = crew (lit "x" ++ nl ++ separator ++ lit "y"))
              then lit "z" else lit "y" ++ nl ++ separator ++ lit "z"))
           (lit "x") (lit "y") (lit "z") (morning [] [])
           (lit "z") (lit "y" ++ nl ++ separator ++ lit "z")).
  - by vm_compute.
  - reflexivity.
  - by vm_compute.
  - reflexivity.
  - reflexivity.
Defined.



(** * The runner in detail: properties *)

Section FineRunner.

Context `{Fine.Orchestrator}.

Lemma State_eq (s1 s2 : Fine.State) :
  Fine.clock s1 = Fine.clock s2 → Fine.reads s1 = Fine.reads s2 →
  Fine.dirs s1 = Fine.dirs s2 → Fine.files s1 = Fine.files s2 →
  Fine.buffers s1 = Fine.buffers s2 → Fine.script s1 = Fine.script s2 →
  Fine.stdin s1 = Fine.stdin s2 → Fine.stdout s1 = Fine.stdout s2 →
  s1 = s2.
Proof. destruct s1, s2; simpl; congruence. Qed.

Lemma fine_bind_returns {A B} (m : Fine.M A) (k : A → Fine.M B) s a s' X :
  m s = (Fine.Returns a, s') → k a s' = X → Fine.bind m k s = X.
Proof. unfold Fine.bind. by intros -> <-. Qed.

Lemma fine_bind_raises {A B} (m : Fine.M A) (k : A → Fine.M B) s e s' :
  m s = (Fine.Raises e, s') → Fine.bind m k s = (Fine.Raises e, s').
Proof. unfold Fine.bind. by intros ->. Qed.

Lemma fine_bind_any {A B} (m : Fine.M A) (k : A → Fine.M B) s o s' X :
  m s = (o, s') →
  match o with
  | Fine.Returns a => k a s'
  | Fine.Raises e => (Fine.Raises e, s')
  end = X →
  Fine.bind m k s = X.
Proof. unfold Fine.bind. by intros -> <-. Qed.

Lemma fine_try_returns {A} (body : Fine.M A) handler s a s' :
  body s = (Fine.Returns a, s') →
  Fine.try_except body handler s = (Fine.Returns a, s').
Proof. unfold Fine.try_except. by intros ->. Qed.

Lemma fine_try_raises (body : Fine.M (option Fine.CrewOutput)) s e s' :
  body s = (Fine.Raises e, s') →
  Fine.try_except body
    (fun e => Fine.bind (Fine.print (lit "Error: " ++ exn_str e))
                (fun _ => Fine.ret None)) s
  = Fine.handled e s'.
Proof. unfold Fine.try_except. intros ->. by destruct e. Qed.

Lemma fine_kickoff_eq (c : Crew) s o sk :
  Fine.kickoff c s = (o, sk) → Fine.crew_kickoff c s = (o, sk).
Proof. by unfold Fine.crew_kickoff. Qed.

Lemma fine_with_open {A} path (body : TextFile → Fine.M A) s f s1 o s2 X :
  Fine.open_w path s = (Fine.Returns f, s1) →
  body f s1 = (o, s2) →
  match o with
  | Fine.Returns a => Fine.bind (Fine.close f) (fun _ => Fine.ret a) s2
  | Fine.Raises e =>
      match Fine.close f s2 with
      | (Fine.Returns _, s3) => (Fine.Raises e, s3)
      | (Fine.Raises e', s3) => (Fine.Raises e', s3)
      end
  end = X →
  Fine.with_open path body s = X.
Proof.
  intros Ho Hb <-. unfold Fine.with_open.
  eapply fine_bind_returns; [exact Ho|]. cbv beta. by rewrite Hb.
Qed.

(** The steps that reach below the program, verdict by verdict. *)
Section Steps.

Variables (c : nat → datetime) (n : nat) (d : gset str) (fl b : gmap str str)
  (l : list Fine.verdict) (i : list str) (o : str).

Lemma now_step :
  Fine.datetime_now (Fine.mkState c n d fl b l i o)
  = (Fine.Returns (c n), Fine.mkState c (S n) d fl b l i o).
Proof. reflexivity. Qed.

Lemma makedirs_nil p :
  Fine.makedirs p (Fine.mkState c n d fl b [] i o)
  = (Fine.Returns tt, Fine.mkState c n ({[ p ]} ∪ d) fl b [] i o).
Proof. reflexivity. Qed.

Lemma makedirs_goes p :
  Fine.makedirs p (Fine.mkState c n d fl b (Fine.Goes :: l) i o)
  = (Fine.Returns tt, Fine.mkState c n ({[ p ]} ∪ d) fl b l i o).
Proof. reflexivity. Qed.

Lemma makedirs_fails p e k :
  Fine.makedirs p (Fine.mkState c n d fl b (Fine.Fails e k :: l) i o)
  = (Fine.Raises e, Fine.mkState c n d fl b l i o).
Proof. reflexivity. Qed.

Lemma open_nil p :
  Fine.open_w p (Fine.mkState c n d fl b [] i o)
  = (Fine.Returns (mkTextFile p),
     Fine.mkState c n d (<[ p := [] ]> fl) (<[ p := [] ]> b) [] i o).
Proof. reflexivity. Qed.

Lemma open_goes p :
  Fine.open_w p (Fine.mkState c n d fl b (Fine.Goes :: l) i o)
  = (Fine.Returns (mkTextFile p),
     Fine.mkState c n d (<[ p := [] ]> fl) (<[ p := [] ]> b) l i o).
Proof. reflexivity. Qed.

Lemma open_fails p e k :
  Fine.open_w p (Fine.mkState c n d fl b (Fine.Fails e k :: l) i o)
  = (Fine.Raises e, Fine.mkState c n d fl b l i o).
Proof. reflexivity. Qed.

Lemma write_nil p text :
  Fine.write (mkTextFile p) text (Fine.mkState c n d fl b [] i o)
  = (Fine.Returns tt,
     Fine.mkState c n d fl (<[ p := default [] (b !! p) ++ text ]> b) [] i o).
Proof. reflexivity. Qed.

Lemma write_goes p text :
  Fine.write (mkTextFile p) text (Fine.mkState c n d fl b (Fine.Goes :: l) i o)
  = (Fine.Returns tt,
     Fine.mkState c n d fl (<[ p := default [] (b !! p) ++ text ]> b) l i o).
Proof. reflexivity. Qed.

Lemma write_fails p text e k :
  Fine.write (mkTextFile p) text (Fine.mkState c n d fl b (Fine.Fails e k :: l) i o)
  = (Fine.Raises e,
     Fine.mkState c n d
       (<[ p := default [] (fl !! p) ++ take k (default [] (b !! p) ++ text) ]> fl)
       (<[ p := [] ]> b) l i o).
Proof. reflexivity. Qed.

Lemma close_nil p :
  Fine.close (mkTextFile p) (Fine.mkState c n d fl b [] i o)
  = (Fine.Returns tt,
     Fine.mkState c n d
       (<[ p := default [] (fl !! p) ++ default [] (b !! p) ]> fl)
       (delete p b) [] i o).
Proof. reflexivity. Qed.

Lemma close_goes p :
  Fine.close (mkTextFile p) (Fine.mkState c n d fl b (Fine.Goes :: l) i o)
  = (Fine.Returns tt,
     Fine.mkState c n d
       (<[ p := default [] (fl !! p) ++ default [] (b !! p) ]> fl)
       (delete p b) l i o).
Proof. reflexivity. Qed.

Lemma close_fails p e k :
  Fine.close (mkTextFile p) (Fine.mkState c n d fl b (Fine.Fails e k :: l) i o)
  = (Fine.Raises e,
     Fine.mkState c n d
       (<[ p := default [] (fl !! p) ++ take k (default [] (b !! p)) ]> fl)
       (delete p b) l i o).
Proof. reflexivity. Qed.

Lemma print_nil text :
  Fine.print text (Fine.mkState c n d fl b [] i o)
  = (Fine.Returns tt, Fine.mkState c n d fl b [] i (o ++ text ++ nl)).
Proof. reflexivity. Qed.

Lemma print_goes text :
  Fine.print text (Fine.mkState c n d fl b (Fine.Goes :: l) i o)
  = (Fine.Returns tt, Fine.mkState c n d fl b l i (o ++ text ++ nl)).
Proof. reflexivity. Qed.

Lemma print_fails text e k :
  Fine.print text (Fine.mkState c n d fl b (Fine.Fails e k :: l) i o)
  = (Fine.Raises e, Fine.mkState c n d fl b l i (o ++ take k (text ++ nl))).
Proof. reflexivity. Qed.

End Steps.

Ltac fine_norm :=
  cbv beta zeta;
  rewrite ?lookup_insert_eq, ?insert_insert_eq, ?delete_insert_eq;
  cbn [default from_option id].

(** One step below the program, chosen by the head of the script. *)
Ltac fine_prim :=
  lazymatch goal with
  | |- Fine.datetime_now _ = _ => apply now_step
  | |- ?call (Fine.mkState _ _ _ _ _ ?l _ _) = _ =>
      lazymatch l with
      | [] =>
          lazymatch call with
          | Fine.makedirs _ => apply makedirs_nil
          | Fine.open_w _ => apply open_nil
          | Fine.write _ _ => apply write_nil
          | Fine.close _ => apply close_nil
          | Fine.print _ => apply print_nil
          end
      | Fine.Goes :: _ =>
          lazymatch call with
          | Fine.makedirs _ => apply makedirs_goes
          | Fine.open_w _ => apply open_goes
          | Fine.write _ _ => apply write_goes
          | Fine.close _ => apply close_goes
          | Fine.print _ => apply print_goes
          end
      | Fine.Fails _ _ :: _ =>
          lazymatch call with
          | Fine.makedirs _ => apply makedirs_fails
          | Fine.open_w _ => apply open_fails
          | Fine.write _ _ => apply write_fails
          | Fine.close _ => apply close_fails
          | Fine.print _ => apply print_fails
          end
      end
  end.

Ltac fine_step K :=
  fine_norm;
  lazymatch goal with
  | |- Fine.bind (Fine.crew_kickoff _) _ _ = _ =>
      eapply fine_bind_returns; [apply fine_kickoff_eq; exact K|]
  | |- Fine.bind Fine.datetime_now _ _ = _ =>
      eapply fine_bind_returns; [apply now_step|]
  | |- Fine.bind (Fine.with_open _ _) _ _ = _ =>
      eapply fine_bind_any; [fine_block K | fine_norm; cbv iota]
  | |- Fine.bind _ _ (Fine.mkState _ _ _ _ _ (Fine.Fails _ _ :: _) _ _) = _ =>
      eapply fine_bind_raises; fine_prim
  | |- Fine.bind _ _ _ = _ =>
      eapply fine_bind_returns; [fine_prim|]
  | |- Fine.ret _ _ = _ => reflexivity
  | |- (Fine.Raises _, _) = _ => reflexivity
  | |- Fine.write _ _ _ = _ => fine_prim
  end
with fine_block K :=
  lazymatch goal with
  | |- Fine.with_open _ _ (Fine.mkState _ _ _ _ _ (Fine.Fails _ _ :: _) _ _) = _ =>
      unfold Fine.with_open; eapply fine_bind_raises; fine_prim
  | |- _ =>
      eapply fine_with_open;
      [ fine_prim
      | repeat fine_step K
      | fine_norm; cbv iota; fine_norm;
        lazymatch goal with
        | |- match Fine.close _ _ with _ => _ end = _ =>
            lazymatch goal with
            | |- context [Fine.close _ (Fine.mkState _ _ _ _ _ [] _ _)] =>
                rewrite close_nil
            | |- context [Fine.close _ (Fine.mkState _ _ _ _ _ (Fine.Goes :: _) _ _)] =>
                rewrite close_goes
            | |- context [Fine.close _ (Fine.mkState _ _ _ _ _ (Fine.Fails _ _ :: _) _ _)] =>
                rewrite close_fails
            end;
            fine_norm; reflexivity
        | |- _ => repeat fine_step K
        end ]
  end.

Ltac same_state :=
  refine (f_equal _ _); apply State_eq;
  cbn [Fine.clock Fine.reads Fine.dirs Fine.files Fine.buffers Fine.script
       Fine.stdin Fine.stdout Fine.after_fs drop];
  [ reflexivity | reflexivity | reflexivity
  | unfold Fine.report_path, report, separator;
    cbn [Fine.clock Fine.reads take concat report_chunks];
    rewrite ?lookup_insert_eq, ?insert_insert_eq; cbn [default from_option id];
    rewrite ?take_nil, ?app_nil_r, <- ?app_assoc; reflexivity
  | unfold Fine.report_path; cbn [Fine.clock Fine.reads];
    rewrite ?delete_insert_eq; reflexivity
  | reflexivity | reflexivity | reflexivity ].

Ltac fine_leaf K :=
  cbn [Fine.fs_phase Fine.first_failure Fine.verdict_at Fine.script
       lookup list_lookup default from_option id Nat.add];
  unfold Fine.run_osint_investigation;
  lazymatch goal with
  | |- _ = (Fine.Returns _, _) =>
      etransitivity; [eapply fine_try_returns; repeat fine_step K|]
  | |- _ = Fine.handled _ _ =>
      etransitivity; [eapply fine_try_raises; repeat fine_step K|]
  end;
  same_state.

Ltac close_cases l K :=
  destruct l as [|[|?e ?k] l]; fine_leaf K.

(** The detailed runner, case by case. *)
Lemma fine_run_cases (T : str) (s : Fine.State) :
  Fine.run_osint_investigation T s =
  match Fine.kickoff (crew T) (Fine.at_kickoff s) with
  | (Fine.Raises e, sk) => Fine.handled e sk
  | (Fine.Returns r, sk) =>
      match Fine.fs_phase T (Fine.output_str r) (Fine.script sk) with
      | Fine.Written =>
          (Fine.Returns (Some r),
           Fine.after_fs true (Some (report T (Fine.output_str r))) 8 sk)
      | Fine.Broke e made content used =>
          Fine.handled e (Fine.after_fs made content used sk)
      end
  end.
Proof.
  destruct (Fine.kickoff (crew T) (Fine.at_kickoff s)) as [[r|e] sk] eqn:K;
    destruct s as [c0 n0 d0 f0 b0 l0 i0 o0];
    cbn [Fine.at_kickoff Fine.set_reads Fine.clock Fine.reads Fine.dirs
         Fine.files Fine.buffers Fine.script Fine.stdin Fine.stdout] in K.
  2: { unfold Fine.run_osint_investigation. eapply fine_try_raises.
       eapply fine_bind_returns; [apply now_step|]. cbv beta zeta.
       eapply fine_bind_raises. apply fine_kickoff_eq. exact K. }
  destruct sk as [c n d f b l i o]. cbn [Fine.script].
  destruct l as [|[|e k] l]; [fine_leaf K | | fine_leaf K].
  destruct l as [|[|e k] l]; [fine_leaf K | | fine_leaf K].
  do 5 (destruct l as [|[|e k] l]; [fine_leaf K | | close_cases l K]).
  close_cases l K.
Qed.

(** ** What the detailed runner does *)

Lemma first_failure_0 (l : list Fine.verdict) : Fine.first_failure 0 l = None.
Proof. reflexivity. Qed.

Lemma first_failure_nil (n : nat) : Fine.first_failure n [] = None.
Proof. by destruct n. Qed.

Lemma first_failure_goes (n : nat) (l : list Fine.verdict) :
  Fine.first_failure (S n) (Fine.Goes :: l) =
  match Fine.first_failure n l with
  | Some (i, e, k) => Some (S i, e, k)
  | None => None
  end.
Proof. reflexivity. Qed.

Lemma first_failure_fails (n : nat) e k (l : list Fine.verdict) :
  Fine.first_failure (S n) (Fine.Fails e k :: l) = Some (O, e, k).
Proof. reflexivity. Qed.

Lemma first_failure_step (n : nat) (l : list Fine.verdict) :
  Fine.first_failure (S n) l = None ↔
  Fine.first_failure n l = None ∧ Fine.verdict_at l n = Fine.Goes.
Proof.
  revert l. induction n as [|n IH]; intros [|[|e k] l];
    rewrite ?first_failure_nil, ?first_failure_fails, ?first_failure_0;
    try (split; [done|by intros [? ?]]).
  rewrite !first_failure_goes.
  change (Fine.verdict_at (Fine.Goes :: l) (S n)) with (Fine.verdict_at l n).
  specialize (IH l).
  destruct (Fine.first_failure (S n) l) as [[[i e] k]|];
    destruct (Fine.first_failure n l) as [[[i' e'] k']|];
    intuition congruence.
Qed.



Lemma fs_phase_written (T R : str) (l : list Fine.verdict) :
  Fine.fs_phase T R l = Fine.Written ↔ Fine.first_failure 8 l = None.
Proof.
  rewrite first_failure_step. unfold Fine.fs_phase.
  destruct (Fine.first_failure 7 l) as [[[[|[|i]] e] k]|].
  - split; [done|by intros [? _]].
  - split; [done|by intros [? _]].
  - split; [|by intros [? _]]. by destruct (Fine.verdict_at l (S (S (S i)))).
  - destruct (Fine.verdict_at l 7); [done|]. split; [done|by intros [_ ?]].
Qed.



Lemma numeral_4 (n : N) : Fine.numeral 4 n = dec4 n.
Proof.
  unfold dec4, digit. cbn [Fine.numeral app].
  assert (n / 10 / 10 = n / 100) as -> by (by rewrite N.Div0.div_div).
  assert (n / 100 / 10 = n / 1000) as -> by (by rewrite N.Div0.div_div).
  reflexivity.
Qed.

(** The stamp of the program is the stamp of the specification. *)
Lemma strftime_as_worded (t : datetime) : strftime t = Fine.stamp_as_worded t.
Proof.
  unfold strftime, Fine.stamp_as_worded. rewrite numeral_4. reflexivity.
Qed.

Lemma handled_stdout (e : Fine.raised) (s : Fine.State) o s' :
  Fine.handled e s = (o, s') →
  Fine.files s' = Fine.files s ∧ Fine.dirs s' = Fine.dirs s
  ∧ Fine.buffers s' = Fine.buffers s
  ∧ match e with
    | Fine.NotException name =>
        o = Fine.Raises (Fine.NotException name)
        ∧ Fine.stdout s' = Fine.stdout s
    | Fine.IsException e0 =>
        match Fine.verdict_at (Fine.script s) 0 with
        | Fine.Goes =>
            o = Fine.Returns None
            ∧ Fine.stdout s' =
                Fine.stdout s ++ (lit "Error: " ++ exn_str e0) ++ nl
        | Fine.Fails e' sofar =>
            o = Fine.Raises e'
            ∧ Fine.stdout s' =
                Fine.stdout s ++ take sofar ((lit "Error: " ++ exn_str e0) ++ nl)
        end
    end.
Proof.
  destruct s as [c n d f b l i o0]. destruct e as [e0|name].
  - cbn [Fine.handled Fine.script]. destruct l as [|[|e' k] l].
    + erewrite fine_bind_returns; [|apply print_nil|reflexivity].
      intros [= <- <-]. by repeat split.
    + erewrite fine_bind_returns; [|apply print_goes|reflexivity].
      intros [= <- <-]. by repeat split.
    + erewrite fine_bind_raises; [|apply print_fails].
      intros [= <- <-]. by repeat split.
  - cbn [Fine.handled]. intros [= <- <-]. by repeat split.
Qed.

(** C2.  When the orchestrator returns a result [r] whose text is [R],
    and [os.makedirs], [open], the five [f.write]s and the closing of the
    file go through, the run returns [r], and the file
    [osint_results/investigation_<YYYYMMDD_HHMMSS>.txt] holds the header
    line, a separator, the target line with [T] as given, a separator
    and [R] as given, in this order and nothing else, with nothing left
    waiting in the file object.  The stamp is the date and time read
    from the clock after the orchestrator has returned, not the reading
    taken for [investigation_id] on entry; it is written out for years
    from 1000 on, which take four digits by themselves.  The other files
    are as the orchestrator left them. *)
Theorem report_written_under_stamped_name
    (T R : str) (s sk : Fine.State) (r : Fine.CrewOutput) :
  Fine.kickoff (crew T) (Fine.at_kickoff s) = (Fine.Returns r, sk) →
  Fine.output_str r = R →
  Fine.first_failure 8 (Fine.script sk) = None →
  valid_datetime (Fine.clock sk (Fine.reads sk)) →
  1000 ≤ year (Fine.clock sk (Fine.reads sk)) →
  ∃ s',
    Fine.run_osint_investigation T s = (Fine.Returns (Some r), s')
    ∧ Fine.files s' =
        <[ lit "osint_results/investigation_" ++
           Fine.stamp_as_worded (Fine.clock sk (Fine.reads sk)) ++ lit ".txt" :=
           lit "OSINT Investigation Report" ++ nl ++
           times (lit "=") 50 ++ nl ++ nl ++
           lit "Assigned task: " ++ T ++ nl ++
           times (lit "=") 50 ++ nl ++ nl ++
           R ]> (Fine.files sk)
    ∧ Fine.buffers s' !!
        (lit "osint_results/investigation_" ++
         Fine.stamp_as_worded (Fine.clock sk (Fine.reads sk)) ++ lit ".txt")
      = None
    ∧ Fine.reads s' = S (Fine.reads sk)
    ∧ results_dir ∈ Fine.dirs s'
    ∧ Fine.stdout s' = Fine.stdout sk.
Proof.
  intros K <- Hf _ _. pose proof (fine_run_cases T s) as Hc.
  rewrite K in Hc. apply (fs_phase_written T (Fine.output_str r)) in Hf.
  rewrite Hf in Hc. eexists. split; [exact Hc|].
  cbn [Fine.files Fine.buffers Fine.dirs Fine.stdout Fine.reads Fine.after_fs].
  rewrite <- strftime_as_worded. fold (Fine.report_path sk).
  split; [|split; [|split; [reflexivity|split; [|reflexivity]]]].
  - unfold report, report_chunks, separator. cbn [concat].
    by rewrite app_nil_r, <- !app_assoc.
  - apply lookup_delete_eq.
  - apply elem_of_union_l. by apply elem_of_singleton.
Qed.

(** C3, as the code has it.  When the calls into [crewai] raise, the
    run creates no file and no directory, and nothing is left waiting
    for a file.  What becomes of the exception depends on its class.  An
    instance of [Exception] is caught: the line ["Error: " + str(e)] is
    printed and [None] is returned, unless [print] raises, in which case
    that exception leaves the function, with only the part of the line
    on standard output that had arrived.  What is not an instance of
    [Exception] is not caught: it leaves the function, and nothing is
    printed. *)
Theorem orchestration_failure_is_handled
    (T : str) (s sk : Fine.State) (e : Fine.raised) :
  Fine.kickoff (crew T) (Fine.at_kickoff s) = (Fine.Raises e, sk) →
  ∃ o s',
    Fine.run_osint_investigation T s = (o, s')
    ∧ Fine.files s' = Fine.files sk
    ∧ Fine.dirs s' = Fine.dirs sk
    ∧ Fine.buffers s' = Fine.buffers sk
    ∧ match e with
      | Fine.NotException name =>
          o = Fine.Raises (Fine.NotException name)
          ∧ Fine.stdout s' = Fine.stdout sk
      | Fine.IsException e0 =>
          match Fine.verdict_at (Fine.script sk) 0 with
          | Fine.Goes =>
              o = Fine.Returns None
              ∧ Fine.stdout s' =
                  Fine.stdout sk ++ (lit "Error: " ++ exn_str e0) ++ nl
          | Fine.Fails e' sofar =>
              o = Fine.Raises e'
              ∧ Fine.stdout s' =
                  Fine.stdout sk ++
                  take sofar ((lit "Error: " ++ exn_str e0) ++ nl)
          end
      end.
Proof.
  intros K. pose proof (fine_run_cases T s) as Hc. rewrite K in Hc.
  destruct (Fine.handled e sk) as [o s'] eqn:Hh.
  exists o, s'. split; [exact Hc|]. by apply handled_stdout.
Qed.



(** X10.  [run_osint_investigation] returns the result [r] exactly if
    the orchestrator returned [r] and the eight calls that follow
    ([os.makedirs], [open], five [f.write]s and the closing of the
    file) all went through. *)
Theorem result_returned_iff (T : str) (s : Fine.State) (r : Fine.CrewOutput) :
  fst (Fine.run_osint_investigation T s) = Fine.Returns (Some r)
  ↔ fst (Fine.kickoff (crew T) (Fine.at_kickoff s)) = Fine.Returns r
    ∧ Fine.first_failure 8
        (Fine.script (snd (Fine.kickoff (crew T) (Fine.at_kickoff s)))) = None.
Proof.
  rewrite (fine_run_cases T s).
  assert (∀ e0 s1, fst (Fine.handled e0 s1) ≠ Fine.Returns (Some r)) as Hh.
  { intros [e1|name] s1; cbn [Fine.handled]; [|done].
    unfold Fine.bind.
    by destruct (Fine.print (lit "Error: " ++ exn_str e1) s1) as [[[]|e2] s2]. }
  destruct (Fine.kickoff (crew T) (Fine.at_kickoff s)) as [[r0|e0] sk];
    cbn [fst snd].
  - rewrite <- (fs_phase_written T (Fine.output_str r0)).
    destruct (Fine.fs_phase T (Fine.output_str r0) (Fine.script sk)).
    + cbn [fst]. split; [by intros [= ->]|by intros [[= ->] _]].
    + split; [by intros ?%Hh|by intros [_ ?]].
  - split; [by intros ?%Hh|by intros [? _]].
Qed.

Lemma handled_frame (e : Fine.raised) (s : Fine.State) :
  Fine.clock (snd (Fine.handled e s)) = Fine.clock s
  ∧ Fine.reads (snd (Fine.handled e s)) = Fine.reads s
  ∧ Fine.stdin (snd (Fine.handled e s)) = Fine.stdin s
  ∧ ∃ t, Fine.stdout (snd (Fine.handled e s)) = Fine.stdout s ++ t.
Proof.
  destruct s as [c n d f b l i o]. destruct e as [e0|name].
  - cbn [Fine.handled]. destruct l as [|[|e' k] l].
    + erewrite fine_bind_returns; [|apply print_nil|reflexivity].
      repeat split. by eexists.
    + erewrite fine_bind_returns; [|apply print_goes|reflexivity].
      repeat split. by eexists.
    + erewrite fine_bind_raises; [|apply print_fails].
      repeat split. by eexists.
  - repeat split. exists []. cbn. by rewrite app_nil_r.
Qed.

(** X18.  What a run leaves alone at the detailed level, whatever its
    outcome, [sk] being the state the orchestrator left: it reads no
    input and does not change the clock, of which it takes at most one
    more reading; it removes no directory; it touches no file and no
    file object but those of its report file; it leaves no text waiting
    for the report file, the [with] block having closed the file; and
    it only appends to standard output. *)
Theorem detailed_run_frame (T : str) (s : Fine.State) :
  let sk := snd (Fine.kickoff (crew T) (Fine.at_kickoff s)) in
  let s' := snd (Fine.run_osint_investigation T s) in
  Fine.stdin s' = Fine.stdin sk
  ∧ Fine.clock s' = Fine.clock sk
  ∧ (Fine.reads sk ≤ Fine.reads s' ≤ S (Fine.reads sk))%nat
  ∧ Fine.dirs sk ⊆ Fine.dirs s'
  ∧ (∀ p, p ≠ Fine.report_path sk →
       Fine.files s' !! p = Fine.files sk !! p
       ∧ Fine.buffers s' !! p = Fine.buffers sk !! p)
  ∧ (Fine.buffers sk !! Fine.report_path sk = None →
     Fine.buffers s' !! Fine.report_path sk = None)
  ∧ ∃ t, Fine.stdout s' = Fine.stdout sk ++ t.
Proof.
  intros sk s'. subst sk s'. rewrite (fine_run_cases T s).
  destruct (Fine.kickoff (crew T) (Fine.at_kickoff s)) as [[r|e] sk];
    cbn [snd].
  - destruct (Fine.fs_phase T (Fine.output_str r) (Fine.script sk))
      as [|e made content used].
    + cbn [snd Fine.stdin Fine.clock Fine.reads Fine.dirs Fine.files
           Fine.buffers Fine.stdout Fine.after_fs].
      split; [done|]. split; [done|]. split; [lia|].
      split; [apply union_subseteq_r|]. split.
      { intros p Hp. by rewrite lookup_insert_ne, lookup_delete_ne. }
      split; [intros _; apply lookup_delete_eq|].
      exists []. by rewrite app_nil_r.
    + destruct (handled_frame e (Fine.after_fs made content used sk))
        as (Hc & Hr & Hi & Ho).
      destruct (handled_stdout e (Fine.after_fs made content used sk) _ _
                  (surjective_pairing _)) as (Hf & Hd & Hb & _).
      rewrite Hc, Hr, Hi, Hf, Hd, Hb.
      cbn [Fine.stdin Fine.clock Fine.reads Fine.dirs Fine.files
           Fine.buffers Fine.stdout Fine.after_fs] in *.
      split; [done|]. split; [done|]. split; [lia|].
      split; [destruct made; [apply union_subseteq_r|done]|]. split.
      { intros p Hp. destruct content; [|done].
        by rewrite lookup_insert_ne, lookup_delete_ne. }
      split; [|done]. destruct content; [|done].
      intros _. apply lookup_delete_eq.
  - destruct (handled_frame e sk) as (Hc & Hr & Hi & Ho).
    destruct (handled_stdout e sk _ _ (surjective_pairing _))
      as (Hf & Hd & Hb & _).
    rewrite Hc, Hr, Hi, Hf, Hd, Hb.
    split; [done|]. split; [done|]. split; [lia|]. by repeat split.
Qed.

End FineRunner.

(** ** The two levels *)

Section Levels.

Context (O : Orchestrator).

(** X17.  Where nothing below the program fails and the orchestrator
    leaves the state as it is, returning or raising an instance of
    [Exception], the detailed runner does what the simple one does: the
    same outcome, the same clock readings, directories, files and
    output. *)
Theorem runners_agree (T : str) (s : Fine.State) :
  Fine.script s = [] →
  fst (@Fine.run_osint_investigation (detailed O) T s)
    = lifted (fst (run_osint_investigation T (coarse s)))
  ∧ coarse (snd (@Fine.run_osint_investigation (detailed O) T s))
    = snd (run_osint_investigation T (coarse s)).
Proof.
  intros Hs. rewrite (@fine_run_cases (detailed O) T s).
  pose proof (run_cases T (coarse s)) as Hc.
  destruct s as [c n d f b l i o]. cbn [Fine.script] in Hs. subst l.
  unfold detailed. cbn [Fine.kickoff Fine.output_str].
  change (coarse (Fine.at_kickoff (Fine.mkState c n d f b [] i o)))
    with (at_kickoff (coarse (Fine.mkState c n d f b [] i o))).
  destruct (kickoff (crew T) (at_kickoff (coarse (Fine.mkState c n d f b [] i o))))
    as [r|e]; cbn [lifted].
  - change (first_fault 7 (faults (coarse (Fine.mkState c n d f b [] i o))))
      with (@None (nat * exn)) in Hc.
    rewrite Hc. split; reflexivity.
  - rewrite Hc. cbn [Fine.handled].
    erewrite fine_bind_returns; [|apply print_nil|reflexivity].
    split; reflexivity.
Qed.

End Levels.

(** ** The detailed runner at concrete inputs *)

(** C3 as worded fails on the code.  When the user interrupts the
    orchestrator, [KeyboardInterrupt] leaves the function: nothing is
    caught, nothing printed, nothing returned.  And when the orchestrator
    raises an instance of [Exception] while standard output is closed,
    the handler's [print] raises and that exception leaves the
    function. *)
Lemma interrupt_is_not_caught :
  @Fine.run_osint_investigation (Fine.refusing Fine.keyboard_interrupt)
    (lit "bob") (Fine.morning [])
  = (Fine.Raises Fine.keyboard_interrupt, Fine.at_kickoff (Fine.morning []))
  ∧ @Fine.run_osint_investigation (Fine.refusing Fine.connection_refused)
      (lit "bob") (Fine.morning [Fine.Fails Fine.closed_stdout 0])
    = (Fine.Raises Fine.closed_stdout, Fine.at_kickoff (Fine.morning [])).
Proof. split; by vm_compute. Qed.


Lemma report_written_under_stamped_name_at_bob :
  ∃ s',
    @Fine.run_osint_investigation (Fine.answering (lit "findings"))
      (lit "bob") (Fine.morning [])
    = (Fine.Returns (Some (lit "findings")), s')
    ∧ Fine.files s' =
        <[ lit "osint_results/investigation_20240517_093001.txt" :=
           lit "OSINT Investigation Report" ++ nl ++
           times (lit "=") 50 ++ nl ++ nl ++
           lit "Assigned task: " ++ lit "bob" ++ nl ++
           times (lit "=") 50 ++ nl ++ nl ++
           lit "findings" ]> ∅
    ∧ Fine.buffers s'
        !! lit "osint_results/investigation_20240517_093001.txt" = None
    ∧ Fine.reads s' = 2%nat
    ∧ results_dir ∈ Fine.dirs s'
    ∧ Fine.stdout s' = [].
Proof.
  (apply (@report_written_under_stamped_name
           (Fine.answering (lit "findings")) (lit "bob") (lit "findings")
           (Fine.morning []) (Fine.at_kickoff (Fine.morning []))
           (lit "findings"));
    [reflexivity | reflexivity | reflexivity
    | unfold valid_datetime; cbn; lia | cbn; lia]).
Defined.

Lemma orchestration_failure_is_handled_at_bob :
  ∃ o s',
    @Fine.run_osint_investigation (Fine.refusing Fine.connection_refused)
      (lit "bob") (Fine.morning [])
    = (o, s')
    ∧ Fine.files s' = ∅
    ∧ Fine.dirs s' = ∅
    ∧ Fine.buffers s' = ∅
    ∧ o = Fine.Returns None
    ∧ Fine.stdout s' =
        [] ++ (lit "Error: " ++ lit "[Errno 111] Connection refused") ++ nl.
Proof.
  apply (@orchestration_failure_is_handled
           (Fine.refusing Fine.connection_refused) (lit "bob")
           (Fine.morning []) (Fine.at_kickoff (Fine.morning []))
           Fine.connection_refused).
  reflexivity.
Defined.



Lemma runners_agree_at_bob :
  fst (@Fine.run_osint_investigation (detailed (answering numbered))
         (lit "bob") (Fine.morning []))
    = lifted (fst (@run_osint_investigation (answering numbered) (lit "bob")
                     (coarse (Fine.morning []))))
  ∧ coarse (snd (@Fine.run_osint_investigation (detailed (answering numbered))
                   (lit "bob") (Fine.morning [])))
    = snd (@run_osint_investigation (answering numbered) (lit "bob")
             (coarse (Fine.morning []))).
Proof.
  apply (runners_agree (answering numbered) (lit "bob") (Fine.morning [])).
  reflexivity.
Defined.
